(** * Gas price service of the token bridge ([src/services/gasPrice.js])

    A shallow embedding of the gas price cache: the bounds policy
    [gasPriceWithinLimits], the oracle adapter [fetchGasPriceFromOracle],
    the refresh orchestrator [fetchGasPrice], the scheduler entry point
    [start] with its interval callback, and the lookup functions
    [getPrice] and [processGasPriceOptions].

    JavaScript values are modelled by the inductive type [value]; the
    module-level variables of the file are the fields of the record
    [state]; exceptions are the [Throw] results of the type [result]. *)

From Stdlib Require Import ZArith Ascii String Decimal DecimalFacts DecimalPos DecimalN.
From stdpp Require Import gmap strings list.

Set Warnings "-register-all".
Local Open Scope Z_scope.

(** ** JavaScript values *)

(** Numbers.  A finite number is the exact decimal [mant / 10^scale], as
    written in a JSON document; this agrees with the IEEE doubles of the
    engine for literals of at most fifteen significant digits.  Negative
    zero is identified with zero. *)
Inductive number :=
| NaN
| Infinity (negative : bool)
| Dec (mant : Z) (scale : nat).

(** The built-in objects that a property read reaches through the
    prototype of an object: the functions held by [Object.prototype], each
    known by the name in its source text, and [Object.prototype] itself. *)
Inductive builtin :=
| BFunction (name : string)
| BObjectPrototype.

(** Values: the primitives and plain objects with string keys, which is
    what [JSON.parse], [process.env] and the callers of this module
    produce, and the built-in members that a read of such an object can
    return.  An object is the finite map of its own properties, all of
    them data; its prototype is [Object.prototype].  Arrays are left
    out. *)
Inductive value :=
| VUndefined
| VNull
| VBool (b : bool)
| VNum (n : number)
| VStr (s : string)
| VObj (o : gmap string value)
| VBuiltin (b : builtin).

(** Thrown exceptions, with their [message].  The texts of the engine's
    own [TypeError]s are those of the V8 engine. *)
Inductive exn :=
| Error (message : string)
| TypeError (message : string).

Definition message (e : exn) : string :=
  match e with Error m | TypeError m => m end.

Inductive result (A : Type) :=
| Ok (a : A)
| Throw (e : exn).
Arguments Ok {A} a.
Arguments Throw {A} e.

#[global] Instance result_ret : MRet result := @Ok.
#[global] Instance result_bind : MBind result := λ A B f m,
  match m with Ok a => f a | Throw e => Throw e end.

(** [ToBoolean]: the truthiness of a value. *)
Definition ToBoolean (v : value) : bool :=
  match v with
  | VUndefined | VNull => false
  | VBool b => b
  | VNum NaN => false
  | VNum (Infinity _) => true
  | VNum (Dec m _) => negb (m =? 0)
  | VStr s => negb (String.eqb s "")
  | VObj _ | VBuiltin _ => true
  end.

(** [a || b] on values whose evaluation has no effect. *)
Definition js_or (a b : value) : value := if ToBoolean a then a else b.

(** The order of numbers: [x < y] and [x <= y] are false when an operand
    is [NaN]. *)
Definition num_ltb (x y : number) : bool :=
  match x, y with
  | NaN, _ | _, NaN => false
  | Infinity true, Infinity true => false
  | Infinity true, _ => true
  | Infinity false, _ => false
  | Dec _ _, Infinity negative => negb negative
  | Dec m1 s1, Dec m2 s2 => m1 * 10 ^ Z.of_nat s2 <? m2 * 10 ^ Z.of_nat s1
  end.

Definition num_leb (x y : number) : bool :=
  match x, y with
  | NaN, _ | _, NaN => false
  | _, _ => negb (num_ltb y x)
  end.

(** ** Text of numbers and property access *)

Fixpoint uint_chars (d : uint) : list ascii :=
  match d with
  | Nil => []
  | D0 d => "0"%char :: uint_chars d
  | D1 d => "1"%char :: uint_chars d
  | D2 d => "2"%char :: uint_chars d
  | D3 d => "3"%char :: uint_chars d
  | D4 d => "4"%char :: uint_chars d
  | D5 d => "5"%char :: uint_chars d
  | D6 d => "6"%char :: uint_chars d
  | D7 d => "7"%char :: uint_chars d
  | D8 d => "8"%char :: uint_chars d
  | D9 d => "9"%char :: uint_chars d
  end.

Definition zeros (n : nat) : list ascii := replicate n "0"%char.

Definition N_chars (n : N) : list ascii := uint_chars (N.to_uint n).

Definition sign_chars (negative : bool) : list ascii :=
  if negative then ["-"%char] else [].

(** The decimal text of an integer. *)
Definition Z_chars (z : Z) : list ascii :=
  sign_chars (z <? 0) ++ N_chars (Z.abs_N z).

(** Exponent notation: the digits [s] with a point after the first one,
    and the exponent [n - 1]. *)
Definition exponent_chars (s : list ascii) (n : Z) : list ascii :=
  let e := n - 1 in
  match s with
  | [] => []
  | [d] => [d]
  | d :: rest => d :: "."%char :: rest
  end ++ "e"%char :: (if e <? 0 then "-"%char else "+"%char) :: N_chars (Z.abs_N e).

(** [Number.prototype.toString]: with [s] the [k] significant digits of the
    number and [n] the position of its decimal point, the four cases of
    the language definition. *)
Definition Number_toString (x : number) : string :=
  match x with
  | NaN => "NaN"
  | Infinity false => "Infinity"
  | Infinity true => "-Infinity"
  | Dec m sc =>
    if m =? 0 then "0" else
    let '(sig, z) := Decimal.nztail (N.to_uint (Z.abs_N m)) in
    let s := uint_chars sig in
    let k := Z.of_nat (length s) in
    let n := k + Z.of_nat z - Z.of_nat sc in
    string_of_list_ascii (
      sign_chars (m <? 0) ++
      if (k <=? n) && (n <=? 21) then s ++ zeros (Z.to_nat (n - k))
      else if (0 <? n) && (n <=? 21) then
        take (Z.to_nat n) s ++ "."%char :: drop (Z.to_nat n) s
      else if (-6 <? n) && (n <=? 0) then
        "0"%char :: "."%char :: zeros (Z.to_nat (- n)) ++ s
      else exponent_chars s n)
  end.

(** [plain_decimal places x]: the number [x] is zero, or [Number_toString]
    writes it without an exponent and with at most [places] digits after
    the point. *)
Definition plain_decimal (places : Z) (x : number) : bool :=
  match x with
  | Dec m sc =>
      (m =? 0) ||
      let '(sig, z) := Decimal.nztail (N.to_uint (Z.abs_N m)) in
      let k := Z.of_nat (length (uint_chars sig)) in
      let n := k + Z.of_nat z - Z.of_nat sc in
      (-6 <? n) && (n <=? 21) && (k - n <=? places)
  | NaN | Infinity _ => false
  end.

(** The conversion as the specification words it (section 4.2, "multiply
    by 10^9"): the amount in wei of an amount [x] in gwei, an integer when
    [x] has at most nine decimal places. *)
Definition gwei_to_wei (x : number) : Z :=
  match x with
  | Dec m sc => m * 10 ^ 9 / 10 ^ Z.of_nat sc
  | NaN | Infinity _ => 0
  end.

(** [ToString], as applied by template literals and property keys.  An
    object is converted by the [toString] it inherits, and a built-in
    function to its source text; an object whose own property [toString]
    hides the inherited one, which the engine cannot convert, is not told
    apart. *)
Definition ToString (v : value) : string :=
  match v with
  | VUndefined => "undefined"
  | VNull => "null"
  | VBool true => "true"
  | VBool false => "false"
  | VNum n => Number_toString n
  | VStr s => s
  | VObj _ | VBuiltin BObjectPrototype => "[object Object]"
  | VBuiltin (BFunction name) => "function " +:+ name +:+ "() { [native code] }"
  end.

(** The members of [Object.prototype], which every object inherits:
    [constructor] is the function [Object], [__proto__] reads the
    prototype, and the others are functions of their own name. *)
Definition Object_prototype (key : string) : option builtin :=
  if String.eqb key "constructor" then Some (BFunction "Object")
  else if String.eqb key "__proto__" then Some BObjectPrototype
  else if existsb (String.eqb key)
            ["hasOwnProperty"; "isPrototypeOf"; "propertyIsEnumerable";
             "toLocaleString"; "toString"; "valueOf";
             "__defineGetter__"; "__defineSetter__";
             "__lookupGetter__"; "__lookupSetter__"]
  then Some (BFunction key)
  else None.

(** The property read [o[key]].  An own property of an object hides the
    inherited member of the same name; a name that is neither reads as
    [undefined].  [Object.prototype] has its members as own properties and
    no prototype.  The members of strings, numbers, booleans and functions
    are not modelled: their reads give [undefined], as they do in the
    engine for the names [type] and [value]. *)
Definition GetV (o key : value) : result value :=
  match o with
  | VUndefined | VNull =>
      Throw (TypeError ("Cannot read property '" +:+ ToString key +:+ "' of "
                        +:+ ToString o))
  | VObj m =>
      match m !! ToString key with
      | Some v => Ok v
      | None =>
          Ok (from_option VBuiltin VUndefined (Object_prototype (ToString key)))
      end
  | VBuiltin BObjectPrototype =>
      if String.eqb (ToString key) "__proto__" then Ok VNull
      else Ok (from_option VBuiltin VUndefined (Object_prototype (ToString key)))
  | VBool _ | VNum _ | VStr _ | VBuiltin (BFunction _) => Ok VUndefined
  end.

(** The method call [callee.toString()], where [callee] is the text of the
    expression that holds [v].  An own property [toString] of an object is
    data, which cannot be called. *)
Definition toString (callee : string) (v : value) : result string :=
  match v with
  | VUndefined | VNull =>
      Throw (TypeError ("Cannot read property 'toString' of " +:+ ToString v))
  | VObj m =>
      match m !! "toString" with
      | Some _ => Throw (TypeError (callee +:+ ".toString is not a function"))
      | None => Ok (ToString v)
      end
  | _ => Ok (ToString v)
  end.

(** [v === s] for a string literal [s]. *)
Definition strict_equals_string (v : value) (s : string) : bool :=
  match v with
  | VStr s' => String.eqb s' s
  | _ => false
  end.

(** ** The unit conversion of web3-utils

    [Web3Utils.toWei] is an external dependency.  The definition follows
    its behaviour on strings: the text must be an optional sign followed by
    digits and points, with at most one point and no more fractional digits
    than the unit has zeros; the result is the decimal text of the exact
    product.  Only the principal unit names are listed, and the messages
    of the errors are abridged. *)
Module Web3Utils.

Definition unitMap : list (string * nat) :=
  [("wei", 0%nat); ("kwei", 3%nat); ("mwei", 6%nat); ("gwei", 9%nat);
   ("szabo", 12%nat); ("finney", 15%nat); ("ether", 18%nat)].

Definition is_digit (c : ascii) : bool :=
  ((48 <=? N_of_ascii c) && (N_of_ascii c <=? 57))%N.

Definition is_digit_or_point (c : ascii) : bool :=
  is_digit c || Ascii.eqb c ".".

(** The test of the regular expression [^-?[0-9.]+$]. *)
Definition number_syntax (s : list ascii) : bool :=
  let body := match s with
              | c :: t => if Ascii.eqb c "-" then t else s
              | [] => s
              end in
  match body with
  | [] => false
  | _ => forallb is_digit_or_point body
  end.

(** [s.split('.')]. *)
Fixpoint split_point (s : list ascii) : list (list ascii) :=
  match s with
  | [] => [[]]
  | c :: t =>
      if Ascii.eqb c "." then [] :: split_point t
      else match split_point t with
           | [] => [[c]]
           | h :: r => (c :: h) :: r
           end
  end.

(** [new BN(s)] on a string of digits. *)
Definition BN (s : list ascii) : N :=
  foldl (λ acc c, acc * 10 + (N_of_ascii c - 48))%N 0%N s.

Definition or_zero (s : list ascii) : list ascii :=
  match s with [] => ["0"%char] | _ => s end.

Definition toWei (number unit : string) : result string :=
  match List.find (λ u, String.eqb (fst u) unit) unitMap with
  | None =>
      Throw (Error ("This unit '" +:+ unit +:+ "' doesn't exist"))
  | Some (_, unit_zeros) =>
    let baseLength := match unit_zeros with O => 1%nat | _ => unit_zeros end in
    let ether := list_ascii_of_string number in
    if negb (number_syntax ether) then
      Throw (Error ("while converting number to string, invalid number value '"
                    +:+ number +:+ "', should be a number matching (^-?[0-9.]+)."))
    else
      let negative := match ether with
                      | c :: _ => Ascii.eqb c "-"
                      | [] => false
                      end in
      let ether := if negative then tail ether else ether in
      if bool_decide (ether = ["."%char]) then
        Throw (Error ("[ethjs-unit] while converting number " +:+ number
                      +:+ " to wei, invalid value"))
      else
        let comps := split_point ether in
        if (2 <? length comps)%nat then
          Throw (Error ("[ethjs-unit] while converting number " +:+ number
                        +:+ " to wei,  too many decimal points"))
        else
          let whole := or_zero (nth 0 comps []) in
          let fraction := or_zero (nth 1 comps []) in
          if (baseLength <? length fraction)%nat then
            Throw (Error ("[ethjs-unit] while converting number " +:+ number
                          +:+ " to wei, too many decimal places"))
          else
            let fraction := fraction ++ zeros (baseLength - length fraction) in
            let wei := (BN whole * 10 ^ N.of_nat unit_zeros + BN fraction)%N in
            Ok (string_of_list_ascii
                  (Z_chars (if negative then - Z.of_N wei else Z.of_N wei)))
  end.

(** The two shapes of text that are accepted when the digits fit the unit:
    digits alone, or digits, a point and at least one digit. *)
Inductive decimal_text (whole fraction : list ascii) : list ascii → Prop :=
| text_integer :
    whole ≠ [] → fraction = [] → decimal_text whole fraction whole
| text_fraction :
    fraction ≠ [] → decimal_text whole fraction (whole ++ "."%char :: fraction).

End Web3Utils.

(** ** Collaborators and module state *)

(** [process.env]: a variable is a string, or is unset. *)
Record environment := {
  FOREIGN_GAS_PRICE_FALLBACK : option string;
  FOREIGN_GAS_PRICE_ORACLE_URL : option string;
  FOREIGN_GAS_PRICE_SPEED_TYPE : option string;
  FOREIGN_GAS_PRICE_UPDATE_INTERVAL : option string;
  HOME_GAS_PRICE_FALLBACK : option string;
  HOME_GAS_PRICE_ORACLE_URL : option string;
  HOME_GAS_PRICE_SPEED_TYPE : option string;
  HOME_GAS_PRICE_UPDATE_INTERVAL : option string
}.

Definition env_value (x : option string) : value :=
  match x with Some s => VStr s | None => VUndefined end.

(** The two bridge contracts created when the module is loaded. *)
Inductive bridge := homeBridge | foreignBridge.

(** A contract, as [fetchGasPrice] uses it: the outcome of awaiting
    [bridgeContract.methods.gasPrice().call()]. *)
Record contract := { methods_gasPrice_call : unit → result value }.

(** An HTTP response: the outcome of awaiting [response.json()]. *)
Record response := { response_json : unit → result value }.

(** What the network answers during one refresh: the outcome of
    [fetch(url)] and the behaviour of the two contracts. *)
Record world := {
  fetch : value → result response;
  contract_of : bridge → contract
}.

(** The variables captured by the callback that [start] schedules. *)
Record task := {
  bridgeContract : bridge;
  oracleUrl : value;
  speedType : value;
  updateInterval : value
}.

Inductive log_entry :=
| log_debug (fields : value) (msg : string)
| log_error (msg : string).

(** The module-level variables, the interval timers that are armed, and
    what was handed to the logger. *)
Record state := {
  cachedGasPrice : value;
  cachedGasPriceOracleSpeeds : value;
  fetchGasPriceInterval : option nat;
  timers : gmap nat task;
  logged : list log_entry
}.

(** The state of a freshly loaded module. *)
Definition initial_state : state :=
  {| cachedGasPrice := VNull;
     cachedGasPriceOracleSpeeds := VNull;
     fetchGasPriceInterval := None;
     timers := ∅;
     logged := [] |}.

Record OracleResult := {
  oracleGasPrice : value;
  oracleResponse : value
}.

Record GasPriceOutcome := {
  gasPrice : value;
  oracleGasPriceSpeeds : value
}.

(** [GAS_PRICE_OPTIONS] of [utils/constants] is not among the sources;
    section 6 of the specification gives the two request types. *)
Module GAS_PRICE_OPTIONS.

(** Modelled from the spec: the request type of an explicit value is
    "gasPrice" (section 6; [utils/constants] is not among the sources). *)
Definition GAS_PRICE : string := "gasPrice".

(** Modelled from the spec: the request type of a named speed is "speed"
    (section 6; [utils/constants] is not among the sources). *)
Definition SPEED : string := "speed".

End GAS_PRICE_OPTIONS.

Definition clearInterval (handle : option nat) (st : state) : state :=
  match handle with
  | None => st
  | Some h =>
      {| cachedGasPrice := cachedGasPrice st;
         cachedGasPriceOracleSpeeds := cachedGasPriceOracleSpeeds st;
         fetchGasPriceInterval := fetchGasPriceInterval st;
         timers := delete h (timers st);
         logged := logged st |}
  end.

(** Modelled from the spec: [setIntervalAndRun] of [utils/utils] is not
    among the sources.  Section 4.5: [start] "immediately invokes
    refreshOnce once, then schedules it repeatedly at the configured
    interval", and a later [start] cancels the loop through the handle.
    The timer is armed under a fresh handle; every invocation of the
    callback, the immediate one included, completes later as a [refresh]
    step. *)
Definition setIntervalAndRun (f : task) (st : state) : nat * state :=
  let h := fresh (dom (timers st)) in
  (h, {| cachedGasPrice := cachedGasPrice st;
         cachedGasPriceOracleSpeeds := cachedGasPriceOracleSpeeds st;
         fetchGasPriceInterval := fetchGasPriceInterval st;
         timers := <[h := f]> (timers st);
         logged := logged st |}).

Section GasPrice.

(** [GAS_PRICE_BOUNDARIES.MIN], [GAS_PRICE_BOUNDARIES.MAX] and
    [DEFAULT_UPDATE_INTERVAL] come from [utils/constants], and the
    environment from the process; they are parameters of the development. *)
Variables MIN MAX : number.
Variable DEFAULT_UPDATE_INTERVAL : value.
Variable env : environment.

(** The built-in conversion of a string to a number, used when a string
    is compared with a number.  No result below depends on how it
    behaves. *)
Variable StringToNumber : string → number.

(** [ToNumber], as applied by a comparison with a number.  An object is
    converted through the [toString] it inherits and a built-in function
    through its source text, neither of which reads as a number; an object
    whose own property [toString] hides the inherited one, which the engine
    cannot convert, is not told apart. *)
Definition ToNumber (v : value) : number :=
  match v with
  | VUndefined => NaN
  | VNull => Dec 0 0
  | VBool true => Dec 1 0
  | VBool false => Dec 0 0
  | VNum n => n
  | VStr s => StringToNumber s
  | VObj _ | VBuiltin _ => NaN
  end.

(** [a < b], [a > b], [a <= b] and [a >= b] where [b] is a number, as both
    bounds are. *)
Definition js_lt (a : value) (b : number) : bool := num_ltb (ToNumber a) b.
Definition js_gt (a : value) (b : number) : bool := num_ltb b (ToNumber a).
Definition js_le (a : value) (b : number) : bool := num_leb (ToNumber a) b.
Definition js_ge (a : value) (b : number) : bool := num_leb b (ToNumber a).

(** ** Bounds policy *)

Definition gasPriceWithinLimits (gasPrice : value) : value :=
  if js_lt gasPrice MIN then VNum MIN
  else if js_gt gasPrice MAX then VNum MAX
  else gasPrice.

(** ** Oracle adapter *)

Definition fetchGasPriceFromOracle (w : world) (oracleUrl speedType : value)
  : result OracleResult :=
  response ← fetch w oracleUrl;
  json ← response_json response ();
  oracleGasPrice ← GetV json speedType;
  if negb (ToBoolean oracleGasPrice) then
    Throw (Error ("Response from Oracle didn't include gas price for "
                  +:+ ToString speedType +:+ " type."))
  else
    let gasPrice := gasPriceWithinLimits oracleGasPrice in
    text ← toString "gasPrice" gasPrice;
    wei ← Web3Utils.toWei text "gwei";
    Ok {| oracleGasPrice := VStr wei; oracleResponse := json |}.

(** ** Refresh orchestrator *)

Definition fetchGasPrice (bridgeContract : contract)
    (oracleFn : unit → result OracleResult) : GasPriceOutcome * list log_entry :=
  match oracleFn () with
  | Ok r =>
      let gasPrice := oracleGasPrice r in
      let oracleGasPriceSpeeds := oracleResponse r in
      ({| gasPrice := gasPrice; oracleGasPriceSpeeds := oracleGasPriceSpeeds |},
       [log_debug (VObj {[ "gasPrice" := gasPrice ]})
                  "Gas price updated using the oracle"])
  | Throw e =>
      let l1 := log_error ("Gas Price API is not available. " +:+ message e) in
      match methods_gasPrice_call bridgeContract () with
      | Ok gasPrice =>
          ({| gasPrice := gasPrice; oracleGasPriceSpeeds := VNull |},
           [l1; log_debug (VObj {[ "gasPrice" := gasPrice ]})
                          "Gas price updated using the contracts"])
      | Throw e =>
          ({| gasPrice := VNull; oracleGasPriceSpeeds := VNull |},
           [l1; log_error ("There was a problem getting the gas price from the contract. "
                           +:+ message e)])
      end
  end.

(** ** Scheduler *)

(** The callback handed to [setIntervalAndRun], run to completion for the
    captured variables [t] against the answers [w] of the network. *)
Definition refresh (t : task) (w : world) (st : state) : state :=
  let '(out, entries) :=
    fetchGasPrice (contract_of w (bridgeContract t))
      (λ _, fetchGasPriceFromOracle w (oracleUrl t) (speedType t)) in
  {| cachedGasPrice := js_or (gasPrice out) (cachedGasPrice st);
     cachedGasPriceOracleSpeeds :=
       js_or (oracleGasPriceSpeeds out) (cachedGasPriceOracleSpeeds st);
     fetchGasPriceInterval := fetchGasPriceInterval st;
     timers := timers st;
     logged := logged st ++ entries |}.

(** The branch of [start] on [chainId]: the captured variables and the
    fallback that becomes [cachedGasPrice]. *)
Definition chain_config (chainId : value) : result (task * value) :=
  if strict_equals_string chainId "home" then
    Ok ({| bridgeContract := homeBridge;
           oracleUrl := env_value (HOME_GAS_PRICE_ORACLE_URL env);
           speedType := env_value (HOME_GAS_PRICE_SPEED_TYPE env);
           updateInterval :=
             js_or (env_value (HOME_GAS_PRICE_UPDATE_INTERVAL env))
                   DEFAULT_UPDATE_INTERVAL |},
        env_value (HOME_GAS_PRICE_FALLBACK env))
  else if strict_equals_string chainId "foreign" then
    Ok ({| bridgeContract := foreignBridge;
           oracleUrl := env_value (FOREIGN_GAS_PRICE_ORACLE_URL env);
           speedType := env_value (FOREIGN_GAS_PRICE_SPEED_TYPE env);
           updateInterval :=
             js_or (env_value (FOREIGN_GAS_PRICE_UPDATE_INTERVAL env))
                   DEFAULT_UPDATE_INTERVAL |},
        env_value (FOREIGN_GAS_PRICE_FALLBACK env))
  else
    Throw (Error ("Unrecognized chainId '" +:+ ToString chainId +:+ "'")).

Definition start (chainId : value) (st : state) : result unit * state :=
  let st := clearInterval (fetchGasPriceInterval st) st in
  match chain_config chainId with
  | Throw e => (Throw e, st)
  | Ok (t, fallback) =>
      let st := {| cachedGasPrice := fallback;
                   cachedGasPriceOracleSpeeds := cachedGasPriceOracleSpeeds st;
                   fetchGasPriceInterval := fetchGasPriceInterval st;
                   timers := timers st;
                   logged := logged st |} in
      let '(h, st) := setIntervalAndRun t st in
      (Ok (),
       {| cachedGasPrice := cachedGasPrice st;
          cachedGasPriceOracleSpeeds := cachedGasPriceOracleSpeeds st;
          fetchGasPriceInterval := Some h;
          timers := timers st;
          logged := logged st |})
  end.

(** A run of refresh cycles, oldest first. *)
Definition refreshes (cycles : list (task * world)) (st : state) : state :=
  foldl (λ st c, refresh c.1 c.2 st) st cycles.

End GasPrice.

(** ** Lookup *)

Definition processGasPriceOptions
    (options cachedGasPrice cachedGasPriceOracleSpeeds : value) : result value :=
  let gasPrice := cachedGasPrice in
  guard ← (if ToBoolean options then
             type ← GetV options (VStr "type");
             if ToBoolean type then GetV options (VStr "value") else Ok type
           else Ok options);
  if ToBoolean guard then
    type ← GetV options (VStr "type");
    if strict_equals_string type GAS_PRICE_OPTIONS.GAS_PRICE then
      GetV options (VStr "value")
    else if strict_equals_string type GAS_PRICE_OPTIONS.SPEED then
      key ← GetV options (VStr "value");
      speedOption ← GetV cachedGasPriceOracleSpeeds key;
      if ToBoolean speedOption then
        text ← toString "speedOption" speedOption;
        wei ← Web3Utils.toWei text "gwei";
        Ok (VStr wei)
      else Ok cachedGasPrice
    else Ok gasPrice
  else Ok gasPrice.

Definition getPrice (options : value) (st : state) : result value * state :=
  (processGasPriceOptions options (cachedGasPrice st)
     (cachedGasPriceOracleSpeeds st), st).

(** ** A sample deployment

    The concrete configuration, oracle answers and requests at which the
    statements below are instantiated. *)
Module Sample.

Definition MIN : number := Dec 1 0.
Definition MAX : number := Dec 250 0.
Definition DEFAULT_UPDATE_INTERVAL : value := VNum (Dec 600000 0).

Definition env : environment :=
  {| FOREIGN_GAS_PRICE_FALLBACK := Some "10000000000";
     FOREIGN_GAS_PRICE_ORACLE_URL := Some "https://gasprice.poa.network/";
     FOREIGN_GAS_PRICE_SPEED_TYPE := Some "standard";
     FOREIGN_GAS_PRICE_UPDATE_INTERVAL := Some "600000";
     HOME_GAS_PRICE_FALLBACK := Some "1000000000";
     HOME_GAS_PRICE_ORACLE_URL := Some "https://gasprice.poa.network/";
     HOME_GAS_PRICE_SPEED_TYPE := Some "fast";
     HOME_GAS_PRICE_UPDATE_INTERVAL := None |}.

(** No string is compared in the samples. *)
Definition StringToNumber (s : string) : number := NaN.

(** The oracle answers with the document [json]; the contracts answer
    7000000000. *)
Definition oracle_up (json : value) : world :=
  {| fetch := λ _, Ok {| response_json := λ _, Ok json |};
     contract_of := λ _,
       {| methods_gasPrice_call := λ _, Ok (VStr "7000000000") |} |}.

(** The oracle is unreachable; the contracts answer 7000000000. *)
Definition oracle_down : world :=
  {| fetch := λ _, Throw (Error "request to https://gasprice.poa.network/ failed");
     contract_of := λ _,
       {| methods_gasPrice_call := λ _, Ok (VStr "7000000000") |} |}.

(** Neither the oracle nor the contracts answer. *)
Definition all_down : world :=
  {| fetch := λ _, Throw (Error "request to https://gasprice.poa.network/ failed");
     contract_of := λ _,
       {| methods_gasPrice_call := λ _, Throw (Error "Invalid JSON RPC response") |} |}.

Definition home_task : task :=
  {| bridgeContract := homeBridge;
     oracleUrl := VStr "https://gasprice.poa.network/";
     speedType := VStr "fast";
     updateInterval := DEFAULT_UPDATE_INTERVAL |}.

(** The module after [start('home')]. *)
Definition started : state :=
  (start DEFAULT_UPDATE_INTERVAL env (VStr "home") initial_state).2.

Definition speeds : value :=
  VObj {[ "fast" := VNum (Dec 50 0); "slow" := VNum (Dec 10 0) ]}.

(** The functions of the module at these parameters; [clamp] has the
    bounds 1 and 100. *)
Definition clamp : value → value :=
  gasPriceWithinLimits (Dec 1 0) (Dec 100 0) StringToNumber.
Definition oracle : world → value → value → result OracleResult :=
  fetchGasPriceFromOracle MIN MAX StringToNumber.
Definition cycle : task → world → state → state :=
  refresh MIN MAX StringToNumber.

End Sample.

(** * Properties *)

(** ** The order of numbers *)

Lemma pow10_pos (n : nat) : 0 < 10 ^ Z.of_nat n.
Proof. apply Z.pow_pos_nonneg; lia. Qed.

Lemma num_leb_not_ltb (x y : number) : num_leb x y = true → num_ltb y x = false.
Proof.
  destruct x as [| [] |], y as [| [] |]; simpl; try done;
    intros H; by apply negb_true_iff in H.
Qed.

Lemma num_ltb_leb_trans (x y z : number) :
  num_ltb x y = true → num_leb z x = true → num_ltb y z = false.
Proof.
  destruct x as [| [] | mx sx], y as [| [] | my sy], z as [| [] | mz sz];
    simpl; try done.
  intros Hxy Hzx. apply negb_true_iff in Hzx.
  apply Z.ltb_lt in Hxy. apply Z.ltb_ge in Hzx. apply Z.ltb_ge.
  pose proof (pow10_pos sx). pose proof (pow10_pos sy). pose proof (pow10_pos sz).
  set (px := 10 ^ Z.of_nat sx) in *.
  set (py := 10 ^ Z.of_nat sy) in *.
  set (pz := 10 ^ Z.of_nat sz) in *.
  assert (mz * px * py ≤ mx * pz * py) by nia.
  assert (mx * py * pz < my * px * pz) by nia.
  nia.
Qed.

(** ** Decimal text *)

Module Digits.
Import Web3Utils.

Lemma is_digit_not_point (c : ascii) : is_digit c = true → Ascii.eqb c "." = false.
Proof. destruct (Ascii.eqb_spec c ".") as [-> |]; [by vm_compute | done]. Qed.

Lemma is_digit_not_minus (c : ascii) : is_digit c = true → Ascii.eqb c "-" = false.
Proof. destruct (Ascii.eqb_spec c "-") as [-> |]; [by vm_compute | done]. Qed.

Lemma uint_chars_digits (d : uint) : forallb is_digit (uint_chars d) = true.
Proof. induction d; simpl; try done. Qed.

Lemma zeros_digits (n : nat) : forallb is_digit (zeros n) = true.
Proof. induction n; simpl; done. Qed.

Lemma forallb_digit_or_point (l : list ascii) :
  forallb is_digit l = true → forallb is_digit_or_point l = true.
Proof.
  induction l as [| c l IH]; simpl; [done |].
  intros [Hc Hl]%andb_true_iff. unfold is_digit_or_point at 1.
  rewrite Hc. simpl. auto.
Qed.

Lemma BN_from (l : list ascii) (acc : N) :
  (foldl (λ acc c, acc * 10 + (N_of_ascii c - 48)) acc l
   = acc * 10 ^ N.of_nat (length l) + BN l)%N.
Proof.
  unfold BN. revert acc. induction l as [| c l IH]; intros acc.
  - simpl. lia.
  - cbn [foldl length]. rewrite (IH (acc * 10 + _)%N), (IH (0 * 10 + _)%N).
    rewrite Nat2N.inj_succ, N.pow_succ_r'. lia.
Qed.

Lemma BN_app (l1 l2 : list ascii) :
  (BN (l1 ++ l2) = BN l1 * 10 ^ N.of_nat (length l2) + BN l2)%N.
Proof. unfold BN at 1. rewrite foldl_app. apply BN_from. Qed.

Lemma BN_zeros (n : nat) : BN (zeros n) = 0%N.
Proof.
  induction n as [| n IH]; [done |].
  change (zeros (S n)) with (["0"%char] ++ zeros n). rewrite BN_app, IH. done.
Qed.

Lemma BN_or_zero (l : list ascii) : BN (or_zero l) = BN l.
Proof. by destruct l. Qed.

Lemma usize_length (d : uint) :
  DecimalPos.Unsigned.usize d = N.of_nat (length (uint_chars d)).
Proof.
  induction d; cbn [DecimalPos.Unsigned.usize uint_chars length]; [done | ..];
    rewrite Nat2N.inj_succ; by f_equal.
Qed.

Lemma BN_uint_chars (d : uint) : BN (uint_chars d) = N.of_uint d.
Proof.
  unfold N.of_uint. rewrite DecimalPos.Unsigned.of_uint_alt.
  induction d; [done | ..];
    cbn [uint_chars];
    match goal with |- BN (?c :: ?l) = _ => change (c :: l) with ([c] ++ l) end;
    rewrite BN_app, IHd;
    match goal with
    | |- _ = DecimalPos.Unsigned.of_lu (Decimal.rev (?D d)) =>
        change (Decimal.rev (D d)) with (revapp d (D Nil))
    end;
    rewrite DecimalPos.Unsigned.of_lu_revapp, usize_length;
    cbn [DecimalPos.Unsigned.of_lu]; vm_compute (BN _); lia.
Qed.

Lemma split_point_digits (l : list ascii) :
  forallb is_digit l = true → split_point l = [l].
Proof.
  induction l as [| c l IH]; simpl; [done |].
  intros [Hc Hl]%andb_true_iff.
  by rewrite (is_digit_not_point c Hc), (IH Hl).
Qed.

Lemma split_point_app (l1 l2 : list ascii) :
  forallb is_digit l1 = true →
  split_point (l1 ++ "."%char :: l2) = l1 :: split_point l2.
Proof.
  induction l1 as [| c l IH]; simpl; [done |].
  intros [Hc Hl]%andb_true_iff.
  by rewrite (is_digit_not_point c Hc), (IH Hl).
Qed.

Lemma decimal_text_syntax (negative : bool) (whole fraction body : list ascii) :
  forallb is_digit whole = true →
  forallb is_digit fraction = true →
  decimal_text whole fraction body →
  number_syntax (sign_chars negative ++ body) = true ∧
  match sign_chars negative ++ body with
  | c :: _ => Ascii.eqb c "-"
  | [] => false
  end = negative ∧
  (if negative then tail (sign_chars negative ++ body)
   else sign_chars negative ++ body) = body ∧
  body ≠ ["."%char] ∧
  split_point body = whole :: match fraction with [] => [] | _ => [fraction] end.
Proof.
  intros Hw Hf Hbody.
  assert (Hall : forallb is_digit_or_point body = true).
  { destruct Hbody; [by apply forallb_digit_or_point |].
    rewrite forallb_app. cbn [forallb].
    by rewrite !forallb_digit_or_point. }
  assert (Hne : body ≠ []).
  { destruct Hbody; [done |]. by destruct whole. }
  assert (Hhead : match body with c :: _ => Ascii.eqb c "-" | [] => false end = false).
  { destruct body as [| c body']; [done |].
    cbn [forallb] in Hall. apply andb_true_iff in Hall as [Hc _].
    unfold is_digit_or_point in Hc. apply orb_true_iff in Hc as [Hc | Hc].
    - by apply is_digit_not_minus.
    - apply Ascii.eqb_eq in Hc as ->. done. }
  assert (Hpoint : body ≠ ["."%char]).
  { destruct Hbody as [_ _ | Hfr].
    - intros ->. done.
    - destruct whole as [| c [| c' whole']]; destruct fraction; simpl; congruence. }
  assert (Hsplit : split_point body
                   = whole :: match fraction with [] => [] | _ => [fraction] end).
  { destruct Hbody as [_ -> | Hfr].
    - by apply split_point_digits.
    - rewrite split_point_app, split_point_digits by done. by destruct fraction. }
  destruct negative; cbn [sign_chars app tail].
  - repeat split; try done. unfold number_syntax. simpl.
    destruct body; [done | exact Hall].
  - repeat split; try done. unfold number_syntax.
    destruct body as [| c body']; [done |]. rewrite Hhead. exact Hall.
Qed.

(** The conversion of a plain decimal text with at most nine fractional
    digits: the whole part times [10^9] plus the fraction, padded to nine
    digits, with the sign of the text. *)
Lemma toWei_gwei_text (negative : bool) (whole fraction body : list ascii) :
  forallb is_digit whole = true →
  forallb is_digit fraction = true →
  (length fraction ≤ 9)%nat →
  decimal_text whole fraction body →
  toWei (string_of_list_ascii (sign_chars negative ++ body)) "gwei"
  = Ok (string_of_list_ascii
          (Z_chars
             (let wei := Z.of_N (BN whole * 10 ^ 9
                                 + BN fraction * 10 ^ N.of_nat (9 - length fraction)) in
              if negative then - wei else wei))).
Proof.
  intros Hw Hf Hlen Hbody.
  destruct (decimal_text_syntax negative _ _ _ Hw Hf Hbody)
    as (Hsyntax & Hneg & Hether & Hpoint & Hsplit).
  unfold toWei.
  change (List.find _ unitMap) with (Some ("gwei", 9%nat)). cbv iota beta.
  rewrite list_ascii_of_string_of_list_ascii.
  rewrite Hsyntax, Hneg, Hether. cbn [negb].
  rewrite bool_decide_eq_false_2 by done.
  rewrite Hsplit.
  assert (Hcomps : (2 <? length (whole :: match fraction with
                                          | [] => []
                                          | _ => [fraction]
                                          end))%nat = false).
  { by destruct fraction. }
  rewrite Hcomps.
  change (nth 0 (whole :: _) []) with whole.
  assert (Hfrac : nth 1 (whole :: match fraction with [] => [] | _ => [fraction] end) []
                  = fraction).
  { by destruct fraction. }
  rewrite Hfrac.
  assert (Hplaces : (9 <? length (or_zero fraction))%nat = false).
  { apply Nat.ltb_ge. destruct fraction; simpl in *; lia. }
  rewrite Hplaces. do 3 f_equal.
  assert (Hwei : (BN (or_zero whole) * 10 ^ N.of_nat 9
                  + BN (or_zero fraction ++ zeros (9 - length (or_zero fraction)))
                  = BN whole * 10 ^ 9
                    + BN fraction * 10 ^ N.of_nat (9 - length fraction))%N).
  { rewrite BN_or_zero, BN_app, BN_zeros, BN_or_zero.
    unfold zeros. rewrite length_replicate.
    destruct fraction; [done |]. cbn [or_zero]. lia. }
  cbv zeta. by rewrite Hwei.
Qed.

End Digits.

(** ** Conversion of a printed number *)

Lemma significand_value (m : Z) (sig : uint) (z : nat) :
  m ≠ 0 →
  Decimal.nztail (N.to_uint (Z.abs_N m)) = (sig, z) →
  Z.abs_N m = (Web3Utils.BN (uint_chars sig) * 10 ^ N.of_nat z)%N.
Proof.
  intros Hm Hsig. rewrite Digits.BN_uint_chars.
  assert (Hpos : ∃ p, Z.abs_N m = Npos p) by (destruct m; [done | eauto ..]).
  destruct Hpos as [p Hp]. rewrite Hp in *.
  pose proof (DecimalPos.Unsigned.nztail_to_uint p) as Hp'.
  change (N.to_uint (N.pos p)) with (Pos.to_uint p) in Hsig.
  by rewrite Hsig in Hp'.
Qed.

Lemma wei_of_significand (m : Z) (sc z : nat) (V W : N) :
  Z.abs_N m = (V * 10 ^ N.of_nat z)%N →
  (sc ≤ z + 9)%nat →
  W = (V * 10 ^ N.of_nat (z + 9 - sc))%N →
  (if m <? 0 then - Z.of_N W else Z.of_N W) = gwei_to_wei (Dec m sc) ∧
  gwei_to_wei (Dec m sc) * 10 ^ Z.of_nat sc = m * 10 ^ 9.
Proof.
  intros Hm Hsc ->. unfold gwei_to_wei.
  pose proof (pow10_pos sc) as Hpos.
  assert (Habs : Z.abs m * 10 ^ 9
                 = Z.of_N (V * 10 ^ N.of_nat (z + 9 - sc)) * 10 ^ Z.of_nat sc).
  { rewrite <- N2Z.inj_abs_N, Hm, !N2Z.inj_mul, !N2Z.inj_pow.
    rewrite !nat_N_Z. change (Z.of_N 10) with 10.
    rewrite <- !Z.mul_assoc, <- !Z.pow_add_r by lia.
    do 2 f_equal. lia. }
  set (W := Z.of_N _) in *.
  assert (Hexact : m * 10 ^ 9 = (if m <? 0 then - W else W) * 10 ^ Z.of_nat sc).
  { destruct (Z.ltb_spec m 0); lia. }
  rewrite Hexact, Z.div_mul by lia. done.
Qed.

Lemma toWei_Number_toString (m : Z) (sc : nat) :
  plain_decimal 9 (Dec m sc) = true →
  Web3Utils.toWei (Number_toString (Dec m sc)) "gwei"
    = Ok (string_of_list_ascii (Z_chars (gwei_to_wei (Dec m sc)))) ∧
  gwei_to_wei (Dec m sc) * 10 ^ Z.of_nat sc = m * 10 ^ 9.
Proof.
  unfold plain_decimal, Number_toString.
  destruct (Z.eqb_spec m 0) as [-> | Hm].
  { intros _. unfold gwei_to_wei. rewrite Z.mul_0_l, Z.div_0_l.
    - done.
    - pose proof (pow10_pos sc). lia. }
  destruct (Decimal.nztail (N.to_uint (Z.abs_N m))) as [sig z] eqn:Hsig.
  pose proof (significand_value m sig z Hm Hsig) as Habs.
  pose proof (Digits.uint_chars_digits sig) as Hdigits.
  set (s := uint_chars sig) in *.
  assert (Hs : s ≠ []).
  { intros Hnil. rewrite Hnil in Habs. destruct m; done. }
  cbn [orb]. cbv zeta. set (k := length s).
  intros [[Hlo Hhi]%andb_true_iff Hplaces]%andb_true_iff.
  apply Z.ltb_lt in Hlo. apply Z.leb_le in Hhi, Hplaces.
  assert (Hsc : (sc ≤ z + 9)%nat) by lia.
  destruct (Z.leb_spec (Z.of_nat k) (Z.of_nat k + Z.of_nat z - Z.of_nat sc))
    as [Hint | Hfrac].
  - (* an integer: the digits, then zeros *)
    replace (_ <=? 21) with true by (symmetry; by apply Z.leb_le). cbn [andb].
    replace (Z.to_nat _) with (z - sc)%nat by lia.
    rewrite (Digits.toWei_gwei_text (m <? 0) (s ++ zeros (z - sc)) []).
    + cbv zeta.
      destruct (wei_of_significand m sc z (Web3Utils.BN s)
                  (Web3Utils.BN (s ++ zeros (z - sc)) * 10 ^ 9
                   + Web3Utils.BN [] * 10 ^ N.of_nat (9 - length (@nil ascii)))%N
                  Habs Hsc) as [-> Hexact]; [| done].
      rewrite Digits.BN_app, Digits.BN_zeros. unfold zeros.
      rewrite length_replicate. change (Web3Utils.BN []) with 0%N.
      replace (z + 9 - sc)%nat with ((z - sc) + 9)%nat by lia.
      rewrite Nat2N.inj_add, N.pow_add_r. change (N.of_nat 9) with 9%N. lia.
    + rewrite forallb_app, Hdigits. apply Digits.zeros_digits.
    + done.
    + simpl. lia.
    + constructor; [| done]. by destruct s.
  - destruct (Z.ltb_spec 0 (Z.of_nat k + Z.of_nat z - Z.of_nat sc))
      as [Hwhole | Hzero].
    + (* digits on both sides of the point *)
      replace (_ <=? 21) with true by (symmetry; by apply Z.leb_le). cbn [andb].
      replace (Z.to_nat _) with (k + z - sc)%nat by lia.
      set (j := (k + z - sc)%nat).
      assert (Hdrop : length (drop j s) = (sc - z)%nat).
      { rewrite length_drop. fold k. lia. }
      rewrite (Digits.toWei_gwei_text (m <? 0) (take j s) (drop j s)).
      * cbv zeta. rewrite Hdrop.
        destruct (wei_of_significand m sc z (Web3Utils.BN s)
                    (Web3Utils.BN (take j s) * 10 ^ 9
                     + Web3Utils.BN (drop j s) * 10 ^ N.of_nat (9 - (sc - z)))%N
                    Habs Hsc) as [-> Hexact]; [| done].
        rewrite <- (take_drop j s) at 3. rewrite Digits.BN_app, Hdrop.
        replace (z + 9 - sc)%nat with (9 - (sc - z))%nat by lia.
        replace 9%N with (N.of_nat ((sc - z) + (9 - (sc - z)))) at 1
          by (f_equal; lia).
        rewrite Nat2N.inj_add, N.pow_add_r. lia.
      * rewrite <- (take_drop j s) in Hdigits.
        rewrite forallb_app in Hdigits. by apply andb_true_iff in Hdigits as [? _].
      * rewrite <- (take_drop j s) in Hdigits.
        rewrite forallb_app in Hdigits. by apply andb_true_iff in Hdigits as [_ ?].
      * lia.
      * apply Web3Utils.text_fraction. intros Hnil. rewrite Hnil in Hdrop.
        simpl in Hdrop. lia.
    + (* a fraction below one: zeros, then the digits *)
      replace (_ <=? 0) with true by (symmetry; by apply Z.leb_le).
      replace (-6 <? _) with true by (symmetry; by apply Z.ltb_lt).
      cbn [andb].
      replace (Z.to_nat _) with (sc - z - k)%nat by lia.
      set (j := (sc - z - k)%nat).
      assert (Hlen : length (zeros j ++ s) = (sc - z)%nat).
      { rewrite length_app. unfold zeros. rewrite length_replicate. fold k. lia. }
      change ("0"%char :: "."%char :: zeros j ++ s)
        with (["0"%char] ++ "."%char :: (zeros j ++ s)).
      rewrite (Digits.toWei_gwei_text (m <? 0) ["0"%char] (zeros j ++ s)).
      * cbv zeta. rewrite Hlen.
        destruct (wei_of_significand m sc z (Web3Utils.BN s)
                    (Web3Utils.BN ["0"%char] * 10 ^ 9
                     + Web3Utils.BN (zeros j ++ s) * 10 ^ N.of_nat (9 - (sc - z)))%N
                    Habs Hsc) as [-> Hexact]; [| done].
        rewrite Digits.BN_app, Digits.BN_zeros.
        change (Web3Utils.BN ["0"%char]) with 0%N.
        replace (z + 9 - sc)%nat with (9 - (sc - z))%nat by lia. lia.
      * done.
      * rewrite forallb_app, Hdigits, Digits.zeros_digits. done.
      * lia.
      * apply Web3Utils.text_fraction. by destruct (zeros j), s.
Qed.

(** ** Results and property reads *)

Lemma bind_Ok {A B : Type} (a : A) (f : A → result B) : Ok a ≫= f = f a.
Proof. done. Qed.

Lemma GetV_own (o : gmap string value) (key v : value) :
  o !! ToString key = Some v → GetV (VObj o) key = Ok v.
Proof. unfold GetV. by intros ->. Qed.

Lemma GetV_inherited (o : gmap string value) (key : value) :
  o !! ToString key = None →
  GetV (VObj o) key
  = Ok (from_option VBuiltin VUndefined (Object_prototype (ToString key))).
Proof. unfold GetV. by intros ->. Qed.

Lemma GetV_absent (o : gmap string value) (key : value) :
  o !! ToString key = None → Object_prototype (ToString key) = None →
  GetV (VObj o) key = Ok VUndefined.
Proof. intros Hown Hproto. by rewrite (GetV_inherited _ _ Hown), Hproto. Qed.


Section Properties.

Context (MIN MAX : number) (DEFAULT_UPDATE_INTERVAL : value)
        (env : environment) (StringToNumber : string → number).

Local Abbreviation clamp := (gasPriceWithinLimits MIN MAX StringToNumber).
Local Abbreviation oracle := (fetchGasPriceFromOracle MIN MAX StringToNumber).
Local Abbreviation cycle := (refresh MIN MAX StringToNumber).
Local Abbreviation cycles := (refreshes MIN MAX StringToNumber).
Local Notation "a '<js' b" := (js_lt StringToNumber a b = true) (at level 70).
Local Notation "a '>js' b" := (js_gt StringToNumber a b = true) (at level 70).
Local Notation "a '<=js' b" := (js_le StringToNumber a b = true) (at level 70).
Local Notation "a '>=js' b" := (js_ge StringToNumber a b = true) (at level 70).

(** ** Bounds policy *)

(** C9: the bounds policy is a total function of its argument alone; with
    the bounds ordered, below [MIN] it gives [MIN], above [MAX] it gives
    [MAX], and in between it gives its argument back unchanged. *)
Theorem gasPriceWithinLimits_clamp (v : value) :
  num_leb MIN MAX = true →
  (v <js MIN → clamp v = VNum MIN) ∧
  (v >js MAX → clamp v = VNum MAX) ∧
  (v >=js MIN → v <=js MAX → clamp v = v).
Proof.
  intros Hord. unfold gasPriceWithinLimits, js_lt, js_gt, js_ge, js_le.
  repeat split.
  - by intros ->.
  - intros Hgt. rewrite (num_ltb_leb_trans _ _ _ Hgt Hord). by rewrite Hgt.
  - intros Hge Hle.
    by rewrite (num_leb_not_ltb _ _ Hge), (num_leb_not_ltb _ _ Hle).
Qed.

(** ** Refresh orchestrator *)

Lemma js_or_falsy (a b : value) : ToBoolean a = false → js_or a b = b.
Proof. unfold js_or. by intros ->. Qed.

Lemma js_or_preserves (a b : value) :
  ToBoolean b = true → ToBoolean (js_or a b) = true.
Proof. unfold js_or. by destruct (ToBoolean a) eqn:Ha. Qed.

(** C2: when the oracle fetch throws and the contract call throws too,
    [fetchGasPrice] returns null for both the gas price and the speeds
    (and logs the two failures with their reasons), and the refresh built
    on it leaves both cached variables as they were. *)
Theorem fetchGasPrice_total_failure (t : task) (w : world) (st : state)
    (e1 e2 : exn) :
  oracle w (oracleUrl t) (speedType t) = Throw e1 →
  methods_gasPrice_call (contract_of w (bridgeContract t)) () = Throw e2 →
  fetchGasPrice (contract_of w (bridgeContract t))
                (λ _, oracle w (oracleUrl t) (speedType t))
    = ({| gasPrice := VNull; oracleGasPriceSpeeds := VNull |},
       [log_error ("Gas Price API is not available. " +:+ message e1);
        log_error ("There was a problem getting the gas price from the contract. "
                   +:+ message e2)]) ∧
  cachedGasPrice (cycle t w st) = cachedGasPrice st ∧
  cachedGasPriceOracleSpeeds (cycle t w st) = cachedGasPriceOracleSpeeds st.
Proof.
  intros Horacle Hcall. unfold refresh, fetchGasPrice.
  rewrite Horacle, Hcall. done.
Qed.

(** C3: when the oracle fetch throws and the contract call returns [v],
    [fetchGasPrice] returns [v] itself as the gas price, neither converted
    nor clamped, and null for the speeds; the refresh built on it leaves
    the cached speeds as they were. *)
Theorem fetchGasPrice_fallback (t : task) (w : world) (st : state)
    (e : exn) (v : value) :
  oracle w (oracleUrl t) (speedType t) = Throw e →
  methods_gasPrice_call (contract_of w (bridgeContract t)) () = Ok v →
  (fetchGasPrice (contract_of w (bridgeContract t))
                 (λ _, oracle w (oracleUrl t) (speedType t))).1
    = {| gasPrice := v; oracleGasPriceSpeeds := VNull |} ∧
  cachedGasPriceOracleSpeeds (cycle t w st) = cachedGasPriceOracleSpeeds st ∧
  cachedGasPrice (cycle t w st) = js_or v (cachedGasPrice st).
Proof.
  intros Horacle Hcall. unfold refresh, fetchGasPrice.
  rewrite Horacle, Hcall. done.
Qed.

(** ** Oracle adapter *)



(** ** Scheduler *)


(** C6 (amended): when the oracle's document is an object holding a
    truthy number [v] at the configured speed, and the clamped number [c]
    is one that is written as a plain decimal with at most nine digits
    after the point, [fetchGasPriceFromOracle] returns the decimal text of
    [c * 10^9], an exact integer, together with the document itself. *)
Theorem fetchGasPriceFromOracle_selected (w : world) (url speed : value)
    (resp : response) (o : gmap string value) (v c : number) :
  fetch w url = Ok resp →
  response_json resp () = Ok (VObj o) →
  o !! ToString speed = Some (VNum v) →
  ToBoolean (VNum v) = true →
  clamp (VNum v) = VNum c →
  plain_decimal 9 c = true →
  oracle w url speed
    = Ok {| oracleGasPrice :=
              VStr (string_of_list_ascii (Z_chars (gwei_to_wei c)));
            oracleResponse := VObj o |} ∧
  ∃ (m : Z) (sc : nat),
    c = Dec m sc ∧ gwei_to_wei c * 10 ^ Z.of_nat sc = m * 10 ^ 9.
Proof.
  intros Hfetch Hjson Hspeed Hv Hclamp Hplain.
  destruct c as [| | m sc]; try done.
  destruct (toWei_Number_toString m sc Hplain) as [HtoWei Hexact].
  split; [| by exists m, sc].
  unfold fetchGasPriceFromOracle.
  rewrite Hfetch, bind_Ok, Hjson, bind_Ok, (GetV_own _ _ _ Hspeed), bind_Ok.
  rewrite Hv, Hclamp. cbn [negb].
  cbn [toString ToString].
  by rewrite bind_Ok, HtoWei, bind_Ok.
Qed.

(** ** The cached gas price *)

Lemma start_cachedGasPrice (chainId : value) (st : state) (t : task)
    (fallback : value) :
  chain_config DEFAULT_UPDATE_INTERVAL env chainId = Ok (t, fallback) →
  (start DEFAULT_UPDATE_INTERVAL env chainId st).1 = Ok () ∧
  cachedGasPrice (start DEFAULT_UPDATE_INTERVAL env chainId st).2 = fallback.
Proof. intros Hcfg. unfold start. by rewrite Hcfg. Qed.

Lemma refresh_cachedGasPrice (t : task) (w : world) (st : state) :
  cachedGasPrice (cycle t w st)
  = js_or (gasPrice (fetchGasPrice (contract_of w (bridgeContract t))
                       (λ _, oracle w (oracleUrl t) (speedType t))).1)
          (cachedGasPrice st).
Proof. unfold refresh. by destruct (fetchGasPrice _ _). Qed.

Lemma refreshes_truthy (run : list (task * world)) (st : state) :
  ToBoolean (cachedGasPrice st) = true →
  ToBoolean (cachedGasPrice (cycles run st)) = true.
Proof.
  unfold refreshes. revert st.
  induction run as [| [t w] run IH]; intros st Hst; [done |].
  cbn [foldl]. apply IH. rewrite refresh_cachedGasPrice.
  by apply js_or_preserves.
Qed.

(** C1: after a successful [start], which stores the configured fallback,
    and any run of refresh cycles: a further cycle whose fetch yields a
    falsy price (both fetches failed, or a falsy answer) leaves the cached
    gas price as it was; a cycle that changes it stores the truthy price of
    an oracle fetch or of a contract call that succeeded; so the cached gas
    price, set by [start] to a configured fallback, is set ever after. *)
Theorem cachedGasPrice_never_unset (chainId : value) (st0 : state)
    (t0 : task) (fallback : value) (run : list (task * world))
    (t : task) (w : world) :
  chain_config DEFAULT_UPDATE_INTERVAL env chainId = Ok (t0, fallback) →
  let st1 := (start DEFAULT_UPDATE_INTERVAL env chainId st0).2 in
  let st := cycles run st1 in
  let primary := oracle w (oracleUrl t) (speedType t) in
  let secondary := methods_gasPrice_call (contract_of w (bridgeContract t)) () in
  let out := (fetchGasPrice (contract_of w (bridgeContract t)) (λ _, primary)).1 in
  cachedGasPrice st1 = fallback ∧
  (ToBoolean (gasPrice out) = false →
     cachedGasPrice (cycle t w st) = cachedGasPrice st) ∧
  (cachedGasPrice (cycle t w st) ≠ cachedGasPrice st →
     ToBoolean (cachedGasPrice (cycle t w st)) = true ∧
     ((∃ r, primary = Ok r ∧ cachedGasPrice (cycle t w st) = oracleGasPrice r) ∨
      (∃ e v, primary = Throw e ∧ secondary = Ok v ∧
              cachedGasPrice (cycle t w st) = v))) ∧
  (ToBoolean fallback = true →
     ToBoolean (cachedGasPrice st) = true ∧
     ToBoolean (cachedGasPrice (cycle t w st)) = true).
Proof.
  intros Hcfg st1 st primary secondary out.
  pose proof (proj2 (start_cachedGasPrice chainId st0 t0 fallback Hcfg)) as Hst1.
  fold st1 in Hst1. rewrite refresh_cachedGasPrice. fold primary out.
  split; [done |]. split; [apply js_or_falsy |]. split.
  - unfold js_or. destruct (ToBoolean (gasPrice out)) eqn:Hout; [| done].
    intros _. split; [done |]. subst out. unfold fetchGasPrice in *.
    destruct primary as [r | e]; [left; by exists r |].
    fold secondary in Hout |- *.
    destruct secondary as [v | e']; [right; by exists e, v | done].
  - intros Hfallback.
    assert (Hst : ToBoolean (cachedGasPrice st) = true).
    { apply refreshes_truthy. by rewrite Hst1. }
    split; [done | by apply js_or_preserves].
Qed.

End Properties.


(** ** Lookup *)

(** C8 (amended): for a request of type 'gasPrice', [getPrice] returns the
    value [v] of the request itself when [v] is truthy, whatever the cache
    holds; when [v] is falsy the request counts as absent and the cached
    gas price is returned.  The state is left alone. *)
Theorem getPrice_explicit_value (o : gmap string value) (v : value) (st : state) :
  o !! "type" = Some (VStr "gasPrice") →
  o !! "value" = Some v →
  (ToBoolean v = true → getPrice (VObj o) st = (Ok v, st)) ∧
  (ToBoolean v = false → getPrice (VObj o) st = (Ok (cachedGasPrice st), st)).
Proof.
  intros Htype Hvalue. unfold getPrice, processGasPriceOptions. simpl.
  rewrite Htype, Hvalue. simpl. split; by intros ->.
Qed.

(** C10: [getPrice] returns the state it was given, its result is that of
    [processGasPriceOptions] on the two cached variables, and it is the
    same in any two states that agree on them. *)
Theorem getPrice_read_only (options : value) (st : state) :
  (getPrice options st).2 = st ∧
  (getPrice options st).1
    = processGasPriceOptions options (cachedGasPrice st)
        (cachedGasPriceOracleSpeeds st) ∧
  ∀ st' : state,
    cachedGasPrice st' = cachedGasPrice st →
    cachedGasPriceOracleSpeeds st' = cachedGasPriceOracleSpeeds st →
    (getPrice options st').1 = (getPrice options st).1.
Proof.
  repeat split. intros st' Hprice Hspeeds. unfold getPrice. simpl.
  by rewrite Hprice, Hspeeds.
Qed.

(** C4: right after [start('home')], and still after a refresh in which
    the oracle was unreachable and the contract answered, the cached speeds
    are null, and a request for a named speed makes [getPrice] throw a
    [TypeError] instead of returning the cached gas price. *)
Theorem getPrice_speed_before_oracle_fetch (MIN MAX : number)
    (DEFAULT_UPDATE_INTERVAL : value) (env : environment)
    (StringToNumber : string → number) (t : task) :
  let request := VObj {[ "type" := VStr "speed"; "value" := VStr "fast" ]} in
  let st := (start DEFAULT_UPDATE_INTERVAL env (VStr "home") initial_state).2 in
  let st' := refresh MIN MAX StringToNumber t Sample.oracle_down st in
  getPrice request st
    = (Throw (TypeError "Cannot read property 'fast' of null"), st) ∧
  cachedGasPrice st' = VStr "7000000000" ∧
  getPrice request st'
    = (Throw (TypeError "Cannot read property 'fast' of null"), st').
Proof. done. Qed.

(** * The statements at the sample deployment *)

Module Instances.
Import Sample.

(** With [MIN = 1] and [MAX = 100]: 0 is raised to 1, 150 is lowered to
    100 and 42 is kept. *)
Lemma gasPriceWithinLimits_clamp_sample :
  num_leb (Dec 1 0) (Dec 100 0) = true ∧
  clamp (VNum (Dec 0 0)) = VNum (Dec 1 0) ∧
  clamp (VNum (Dec 150 0)) = VNum (Dec 100 0) ∧
  clamp (VNum (Dec 42 0)) = VNum (Dec 42 0).
Proof.
  split; [reflexivity |].
  pose proof (gasPriceWithinLimits_clamp (Dec 1 0) (Dec 100 0) StringToNumber)
    as Hclamp.
  split; [| split].
  - apply (Hclamp (VNum (Dec 0 0))); reflexivity.
  - apply (Hclamp (VNum (Dec 150 0))); reflexivity.
  - apply (Hclamp (VNum (Dec 42 0))); reflexivity.
Defined.

(** Oracle and contracts both down: the cache of the started module is
    kept. *)
Lemma fetchGasPrice_total_failure_sample :
  oracle all_down (oracleUrl home_task) (speedType home_task)
    = Throw (Error "request to https://gasprice.poa.network/ failed") ∧
  methods_gasPrice_call (contract_of all_down homeBridge) ()
    = Throw (Error "Invalid JSON RPC response") ∧
  cachedGasPrice (cycle home_task all_down started) = VStr "1000000000" ∧
  cachedGasPriceOracleSpeeds (cycle home_task all_down started) = VNull.
Proof.
  split; [reflexivity |]. split; [reflexivity |].
  exact (proj2 (fetchGasPrice_total_failure MIN MAX StringToNumber
                  home_task all_down started _ _ eq_refl eq_refl)).
Defined.

(** Oracle down, contract answering 7000000000: that string is the
    outcome, and the cached speeds are kept. *)
Lemma fetchGasPrice_fallback_sample :
  oracle oracle_down (oracleUrl home_task) (speedType home_task)
    = Throw (Error "request to https://gasprice.poa.network/ failed") ∧
  methods_gasPrice_call (contract_of oracle_down homeBridge) ()
    = Ok (VStr "7000000000") ∧
  (fetchGasPrice (contract_of oracle_down homeBridge)
     (λ _, oracle oracle_down (oracleUrl home_task) (speedType home_task))).1
    = {| gasPrice := VStr "7000000000"; oracleGasPriceSpeeds := VNull |} ∧
  cachedGasPriceOracleSpeeds (cycle home_task oracle_down started) = VNull.
Proof.
  split; [reflexivity |]. split; [reflexivity |].
  destruct (fetchGasPrice_fallback MIN MAX StringToNumber
              home_task oracle_down started _ _ eq_refl eq_refl)
    as (Hout & Hspeeds & _).
  exact (conj Hout Hspeeds).
Defined.




(** The document [{"fast": 50}]: 50 gwei is 50000000000 wei. *)
Lemma fetchGasPriceFromOracle_selected_sample :
  oracle (oracle_up (VObj {[ "fast" := VNum (Dec 50 0) ]})) (VStr "url") (VStr "fast")
    = Ok {| oracleGasPrice := VStr "50000000000";
            oracleResponse := VObj {[ "fast" := VNum (Dec 50 0) ]} |}.
Proof.
  exact (proj1 (fetchGasPriceFromOracle_selected MIN MAX StringToNumber
                  (oracle_up (VObj {[ "fast" := VNum (Dec 50 0) ]})) (VStr "url")
                  (VStr "fast")
                  {| response_json := λ _, Ok (VObj {[ "fast" := VNum (Dec 50 0) ]}) |}
                  {[ "fast" := VNum (Dec 50 0) ]} (Dec 50 0) (Dec 50 0)
                  eq_refl eq_refl eq_refl eq_refl eq_refl eq_refl)).
Defined.

(** The document [{"fast": 1.0000000001}]: the number is truthy and within
    the bounds, it has ten digits after the point, and the fetch throws
    instead of returning a selected value. *)
Lemma fetchGasPriceFromOracle_ten_decimal_places :
  ToBoolean (VNum (Dec 10000000001 10)) = true ∧
  gasPriceWithinLimits MIN MAX StringToNumber (VNum (Dec 10000000001 10))
    = VNum (Dec 10000000001 10) ∧
  oracle (oracle_up (VObj {[ "fast" := VNum (Dec 10000000001 10) ]}))
         (VStr "url") (VStr "fast")
    = Throw (Error "[ethjs-unit] while converting number 1.0000000001 to wei, too many decimal places").
Proof. repeat split. Qed.

(** The request [{type: 'gasPrice', value: 99}] on the started module. *)
Lemma getPrice_explicit_value_sample :
  getPrice (VObj {[ "type" := VStr "gasPrice"; "value" := VNum (Dec 99 0) ]}) started
    = (Ok (VNum (Dec 99 0)), started).
Proof.
  apply (getPrice_explicit_value
           {[ "type" := VStr "gasPrice"; "value" := VNum (Dec 99 0) ]}
           (VNum (Dec 99 0)) started); reflexivity.
Defined.

(** The request [{type: 'gasPrice', value: 0}] on the started module: the
    answer is the cached fallback, not the 0 of the request. *)
Lemma getPrice_explicit_zero :
  getPrice (VObj {[ "type" := VStr "gasPrice"; "value" := VNum (Dec 0 0) ]}) started
    = (Ok (VStr "1000000000"), started) ∧
  VStr "1000000000" ≠ VNum (Dec 0 0).
Proof. split; [reflexivity | discriminate]. Qed.

(** After [start('home')], a cycle with everything down and a cycle with
    the oracle up, the cache is set; a further cycle with the oracle down
    keeps it set. *)
Lemma cachedGasPrice_never_unset_sample :
  let st := refreshes MIN MAX StringToNumber
              [(home_task, all_down); (home_task, oracle_up speeds)] started in
  chain_config DEFAULT_UPDATE_INTERVAL env (VStr "home")
    = Ok (home_task, VStr "1000000000") ∧
  ToBoolean (cachedGasPrice st) = true ∧
  ToBoolean (cachedGasPrice (cycle home_task oracle_down st)) = true.
Proof.
  split; [reflexivity |].
  destruct (cachedGasPrice_never_unset MIN MAX DEFAULT_UPDATE_INTERVAL env
              StringToNumber (VStr "home") initial_state _ _
              [(home_task, all_down); (home_task, oracle_up speeds)]
              home_task oracle_down eq_refl)
    as (_ & _ & _ & Hset).
  exact (Hset eq_refl).
Defined.

End Instances.

(** * Further properties *)

(** ** More on the order of numbers *)

Lemma num_ltb_irrefl (x : number) : num_ltb x x = false.
Proof. destruct x as [| [] | m s]; simpl; try done. apply Z.ltb_irrefl. Qed.

Lemma num_ltb_NaN_l (x : number) : num_ltb NaN x = false.
Proof. done. Qed.

Lemma num_ltb_NaN_r (x : number) : num_ltb x NaN = false.
Proof. by destruct x as [| [] |]. Qed.

Lemma num_leb_refl (x y : number) : num_leb x y = true → num_leb x x = true.
Proof. destruct x as [| [] |], y; simpl; try done; by rewrite Z.ltb_irrefl. Qed.

Lemma num_leb_refl_r (x y : number) : num_leb x y = true → num_leb y y = true.
Proof.
  destruct y as [| [] |], x as [| [] |]; simpl; try done; by rewrite Z.ltb_irrefl.
Qed.

Lemma num_not_ltb_leb (x y : number) :
  x ≠ NaN → y ≠ NaN → num_ltb x y = false → num_leb y x = true.
Proof. destruct x as [| [] |], y as [| [] |]; simpl; try done; by intros _ _ ->. Qed.

Lemma num_leb_not_NaN (x y : number) : num_leb x y = true → x ≠ NaN ∧ y ≠ NaN.
Proof. by destruct x, y. Qed.

(** Two decimals with the same value compare alike. *)
Lemma num_ltb_same_value (m1 m2 : Z) (s1 s2 : nat) (y : number) :
  m1 * 10 ^ Z.of_nat s2 = m2 * 10 ^ Z.of_nat s1 →
  num_ltb y (Dec m1 s1) = num_ltb y (Dec m2 s2) ∧
  num_ltb (Dec m1 s1) y = num_ltb (Dec m2 s2) y.
Proof.
  intros Heq. destruct y as [| [] | my sy]; simpl; try done.
  pose proof (pow10_pos s1). pose proof (pow10_pos s2). pose proof (pow10_pos sy).
  set (p1 := 10 ^ Z.of_nat s1) in *.
  set (p2 := 10 ^ Z.of_nat s2) in *.
  set (py := 10 ^ Z.of_nat sy) in *.
  split.
  - destruct (Z.ltb_spec (my * p1) (m1 * py)), (Z.ltb_spec (my * p2) (m2 * py));
      try done; exfalso.
    + assert (my * p1 * p2 < m1 * py * p2) by nia.
      assert (m2 * py * p1 ≤ my * p2 * p1) by nia. nia.
    + assert (m1 * py * p2 ≤ my * p1 * p2) by nia.
      assert (my * p2 * p1 < m2 * py * p1) by nia. nia.
  - destruct (Z.ltb_spec (m1 * py) (my * p1)), (Z.ltb_spec (m2 * py) (my * p2));
      try done; exfalso.
    + assert (m1 * py * p2 < my * p1 * p2) by nia.
      assert (my * p2 * p1 ≤ m2 * py * p1) by nia. nia.
    + assert (my * p1 * p2 ≤ m1 * py * p2) by nia.
      assert (m2 * py * p1 < my * p2 * p1) by nia. nia.
Qed.

Lemma num_leb_same_value (m1 m2 : Z) (s1 s2 : nat) (y : number) :
  m1 * 10 ^ Z.of_nat s2 = m2 * 10 ^ Z.of_nat s1 →
  num_leb y (Dec m1 s1) = num_leb y (Dec m2 s2) ∧
  num_leb (Dec m1 s1) y = num_leb (Dec m2 s2) y.
Proof.
  intros Heq. destruct (num_ltb_same_value m1 m2 s1 s2 y Heq) as [H1 H2].
  destruct y as [| [] | my sy]; try done; unfold num_leb; by rewrite ?H1, ?H2.
Qed.

Section Bounds.

Context (MIN MAX : number) (StringToNumber : string → number).

Local Abbreviation clamp := (gasPriceWithinLimits MIN MAX StringToNumber).
Local Abbreviation number_of := (ToNumber StringToNumber).

Lemma clamp_cases (v : value) :
  num_leb MIN MAX = true →
  (js_lt StringToNumber v MIN = true ∧ clamp v = VNum MIN) ∨
  (js_lt StringToNumber v MIN = false ∧ js_gt StringToNumber v MAX = true ∧
   clamp v = VNum MAX) ∨
  (js_lt StringToNumber v MIN = false ∧ js_gt StringToNumber v MAX = false ∧
   clamp v = v).
Proof.
  intros _. unfold gasPriceWithinLimits.
  destruct (js_lt StringToNumber v MIN); [by left |].
  destruct (js_gt StringToNumber v MAX); [right; by left | right; by right].
Qed.

Lemma clamp_in_bounds (v : value) :
  num_leb MIN MAX = true →
  number_of v ≠ NaN →
  num_leb MIN (number_of (clamp v)) = true ∧
  num_leb (number_of (clamp v)) MAX = true.
Proof.
  intros Hord Hnum. destruct (num_leb_not_NaN _ _ Hord) as [Hmin Hmax].
  destruct (clamp_cases v Hord) as [[_ ->] | [(_ & _ & ->) | (Hlt & Hgt & ->)]];
    cbn [ToNumber].
  - split; [by eapply num_leb_refl | done].
  - split; [done | by eapply num_leb_refl_r].
  - unfold js_lt, js_gt in *. split; by apply num_not_ltb_leb.
Qed.

(** X1: with the bounds ordered, the bounds policy gives a value between
    [MIN] and [MAX] for every argument that has a numeric value; an argument
    without one (its numeric value is NaN: undefined, a string that is no
    number, an object with no property [toString] of its own) is given back
    as it is, unbounded. *)
Theorem gasPriceWithinLimits_in_bounds (v : value) :
  num_leb MIN MAX = true →
  (number_of v ≠ NaN →
     js_ge StringToNumber (clamp v) MIN = true ∧
     js_le StringToNumber (clamp v) MAX = true) ∧
  (number_of v = NaN →
   (∀ o : gmap string value, v = VObj o → o !! "toString" = None) →
   clamp v = v).
Proof.
  intros Hord. split.
  - intros Hnum. unfold js_ge, js_le. by apply clamp_in_bounds.
  - intros Hnan _. unfold gasPriceWithinLimits, js_lt, js_gt.
    by rewrite Hnan, num_ltb_NaN_l, num_ltb_NaN_r.
Qed.

(** X2: with the bounds ordered, applying the bounds policy twice is the
    same as applying it once. *)
Theorem gasPriceWithinLimits_idempotent (v : value) :
  num_leb MIN MAX = true → clamp (clamp v) = clamp v.
Proof.
  intros Hord.
  destruct (clamp_cases v Hord) as [[_ ->] | [(_ & _ & ->) | (Hlt & Hgt & Hv)]].
  - unfold gasPriceWithinLimits, js_lt, js_gt. cbn [ToNumber].
    by rewrite num_ltb_irrefl, (num_leb_not_ltb _ _ Hord).
  - unfold gasPriceWithinLimits, js_lt, js_gt. cbn [ToNumber].
    by rewrite num_ltb_irrefl, (num_leb_not_ltb _ _ Hord).
  - by rewrite !Hv.
Qed.

End Bounds.

(** ** More on the conversion and on property reads *)

Lemma uint_chars_nonempty (d : uint) : d ≠ Nil → uint_chars d ≠ [].
Proof. by destruct d. Qed.

Lemma N_chars_nonempty (n : N) : N_chars n ≠ [].
Proof.
  unfold N_chars. apply uint_chars_nonempty. destruct n as [| p]; [done |].
  apply DecimalPos.Unsigned.to_uint_nonnil.
Qed.

Lemma Z_text_nonempty (z : Z) : string_of_list_ascii (Z_chars z) ≠ "".
Proof.
  unfold Z_chars. pose proof (N_chars_nonempty (Z.abs_N z)) as Hne.
  destruct (z <? 0); [done |]. cbn [sign_chars app].
  by destruct (N_chars (Z.abs_N z)).
Qed.

(** A successful conversion gives a non-empty text, which is truthy. *)
Lemma toWei_Ok_truthy (number unit wei : string) :
  Web3Utils.toWei number unit = Ok wei → ToBoolean (VStr wei) = true.
Proof.
  unfold Web3Utils.toWei. intros Hwei.
  repeat case_match; try discriminate;
    injection Hwei as <-; cbn [ToBoolean];
    apply negb_true_iff, String.eqb_neq, Z_text_nonempty.
Qed.


Lemma GetV_truthy (o key : value) :
  ToBoolean o = true → ∃ v, GetV o key = Ok v.
Proof.
  destruct o as [| | | | | m | [name |]]; try done; cbn [GetV]; intros _;
    try (by eexists).
  - destruct (m !! ToString key); by eexists.
  - destruct (String.eqb _ _); by eexists.
Qed.

Lemma GetV_Ok_truthy (o key v : value) :
  GetV o key = Ok v → ToBoolean v = true → ToBoolean o = true.
Proof.
  destruct o as [| | | | | m | b]; cbn [GetV]; try discriminate; try done;
    by intros [= <-].
Qed.

(** The method reads the value alone: the expression that holds it only
    words the error. *)
Lemma toString_Ok (callee callee' : string) (v : value) (text : string) :
  toString callee v = Ok text → toString callee' v = Ok text.
Proof.
  destruct v as [| | | | | m |]; try done. cbn [toString].
  by destruct (m !! "toString").
Qed.


Lemma Object_prototype_type : Object_prototype "type" = None.
Proof. done. Qed.

Lemma Object_prototype_value : Object_prototype "value" = None.
Proof. done. Qed.

Lemma js_or_truthy (a b : value) : ToBoolean a = true → js_or a b = a.
Proof. unfold js_or. by intros ->. Qed.

Lemma strict_equals_string_true (v : value) (s : string) :
  strict_equals_string v s = true → v = VStr s.
Proof. destruct v; try done. cbn. by intros ->%String.eqb_eq. Qed.

Lemma strict_equals_string_refl (s : string) :
  strict_equals_string (VStr s) s = true.
Proof. cbn. apply String.eqb_refl. Qed.


Lemma processGasPriceOptions_speed_entry (o : gmap string value)
    (key cached speeds entry : value) :
  o !! "type" = Some (VStr "speed") →
  o !! "value" = Some key →
  ToBoolean key = true →
  GetV speeds key = Ok entry →
  processGasPriceOptions (VObj o) cached speeds
  = if ToBoolean entry then
      text ← toString "speedOption" entry;
      wei ← Web3Utils.toWei text "gwei"; Ok (VStr wei)
    else Ok cached.
Proof.
  intros Htype Hvalue Hkey Hentry. unfold processGasPriceOptions.
  rewrite !(GetV_own o (VStr "type") _ Htype), !(GetV_own o (VStr "value") _ Hvalue).
  cbn [ToBoolean]. rewrite !bind_Ok. cbn [ToBoolean negb String.eqb Ascii.eqb].
  rewrite ?bind_Ok, Hkey. cbn [strict_equals_string]. rewrite ?bind_Ok.
  change (String.eqb "speed" GAS_PRICE_OPTIONS.GAS_PRICE) with false.
  change (String.eqb "speed" GAS_PRICE_OPTIONS.SPEED) with true.
  cbv iota. by rewrite ?bind_Ok, Hentry, bind_Ok.
Qed.

Lemma processGasPriceOptions_falsy_value (o : gmap string value)
    (type v cached speeds : value) :
  o !! "type" = Some type →
  o !! "value" = Some v →
  ToBoolean v = false →
  processGasPriceOptions (VObj o) cached speeds = Ok cached.
Proof.
  intros Htype Hvalue Hv. unfold processGasPriceOptions.
  rewrite !(GetV_own o (VStr "type") _ Htype), !(GetV_own o (VStr "value") _ Hvalue).
  cbn [ToBoolean]. rewrite !bind_Ok.
  destruct (ToBoolean type) eqn:Htruthy; rewrite ?bind_Ok, ?Hv, ?Htruthy; done.
Qed.

Section Refresh.

Context (MIN MAX : number) (DEFAULT_UPDATE_INTERVAL : value)
        (env : environment) (StringToNumber : string → number).

Local Abbreviation clamp := (gasPriceWithinLimits MIN MAX StringToNumber).
Local Abbreviation oracle := (fetchGasPriceFromOracle MIN MAX StringToNumber).
Local Abbreviation cycle := (refresh MIN MAX StringToNumber).
Local Abbreviation cycles := (refreshes MIN MAX StringToNumber).

(** ** The oracle adapter, when it returns *)

Lemma fetchGasPriceFromOracle_Ok (w : world) (url speed : value)
    (r : OracleResult) :
  oracle w url speed = Ok r →
  ∃ (resp : response) (json v : value) (text wei : string),
    fetch w url = Ok resp ∧
    response_json resp () = Ok json ∧
    GetV json speed = Ok v ∧
    ToBoolean v = true ∧
    toString "gasPrice" (clamp v) = Ok text ∧
    Web3Utils.toWei text "gwei" = Ok wei ∧
    r = {| oracleGasPrice := VStr wei; oracleResponse := json |}.
Proof.
  unfold fetchGasPriceFromOracle. intros Hr.
  destruct (fetch w url) as [resp |] eqn:Hfetch; [| done].
  rewrite bind_Ok in Hr.
  destruct (response_json resp ()) as [json |] eqn:Hjson; [| done].
  rewrite bind_Ok in Hr.
  destruct (GetV json speed) as [v |] eqn:Hget; [| done].
  rewrite bind_Ok in Hr.
  destruct (ToBoolean v) eqn:Hv; [| done]. cbn [negb] in Hr.
  destruct (toString "gasPrice" (clamp v)) as [text |] eqn:Htext; [| done].
  rewrite bind_Ok in Hr.
  destruct (Web3Utils.toWei text "gwei") as [wei |] eqn:Hwei; [| done].
  rewrite bind_Ok in Hr. injection Hr as <-.
  by exists resp, json, v, text, wei.
Qed.

Lemma fetchGasPriceFromOracle_Ok_truthy (w : world) (url speed : value)
    (r : OracleResult) :
  oracle w url speed = Ok r →
  ToBoolean (oracleGasPrice r) = true ∧ ToBoolean (oracleResponse r) = true.
Proof.
  intros (resp & json & v & text & wei & _ & _ & Hget & Hv & _ & Hwei & ->)
    %fetchGasPriceFromOracle_Ok.
  cbn [oracleGasPrice oracleResponse]. split.
  - by eapply toWei_Ok_truthy.
  - by apply (GetV_Ok_truthy _ _ _ Hget Hv).
Qed.

(** X3: with the bounds ordered, the value that [fetchGasPriceFromOracle]
    selects for a numeric oracle entry, read back in gwei (a count of wei
    with nine decimal places), lies between [MIN] and [MAX]. *)
Theorem fetchGasPriceFromOracle_in_bounds (w : world) (url speed : value)
    (resp : response) (o : gmap string value) (v c : number) :
  num_leb MIN MAX = true →
  fetch w url = Ok resp →
  response_json resp () = Ok (VObj o) →
  o !! ToString speed = Some (VNum v) →
  ToBoolean (VNum v) = true →
  clamp (VNum v) = VNum c →
  plain_decimal 9 c = true →
  ∃ wei : Z,
    oracle w url speed
      = Ok {| oracleGasPrice := VStr (string_of_list_ascii (Z_chars wei));
              oracleResponse := VObj o |} ∧
    num_leb MIN (Dec wei 9) = true ∧
    num_leb (Dec wei 9) MAX = true.
Proof.
  intros Hord Hfetch Hjson Hspeed Hv Hclamp Hplain.
  assert (Hnum : ToNumber StringToNumber (VNum v) ≠ NaN).
  { cbn [ToNumber]. by destruct v. }
  destruct (clamp_in_bounds MIN MAX StringToNumber (VNum v) Hord Hnum)
    as [Hmin Hmax].
  rewrite Hclamp in Hmin, Hmax. cbn [ToNumber] in Hmin, Hmax.
  destruct c as [| | m sc]; try done.
  destruct (toWei_Number_toString m sc Hplain) as [HtoWei Hexact].
  exists (gwei_to_wei (Dec m sc)). split; [| split].
  - unfold fetchGasPriceFromOracle.
    rewrite Hfetch, bind_Ok, Hjson, bind_Ok, (GetV_own _ _ _ Hspeed), bind_Ok.
    rewrite Hv, Hclamp. cbn [negb].
    cbn [toString ToString].
    by rewrite bind_Ok, HtoWei, bind_Ok.
  - by rewrite (proj1 (num_leb_same_value _ m 9 sc MIN Hexact)).
  - by rewrite (proj2 (num_leb_same_value _ m 9 sc MAX Hexact)).
Qed.

(** ** A refresh whose oracle fetch succeeded *)

Lemma refresh_cachedGasPriceOracleSpeeds (t : task) (w : world) (st : state) :
  cachedGasPriceOracleSpeeds (cycle t w st)
  = js_or (oracleGasPriceSpeeds
             (fetchGasPrice (contract_of w (bridgeContract t))
                (λ _, oracle w (oracleUrl t) (speedType t))).1)
          (cachedGasPriceOracleSpeeds st).
Proof. unfold refresh. by destruct (fetchGasPrice _ _). Qed.

Lemma refresh_oracle_Ok (t : task) (w : world) (st : state) (r : OracleResult) :
  oracle w (oracleUrl t) (speedType t) = Ok r →
  cachedGasPrice (cycle t w st) = oracleGasPrice r ∧
  cachedGasPriceOracleSpeeds (cycle t w st) = oracleResponse r.
Proof.
  intros Hr. destruct (fetchGasPriceFromOracle_Ok_truthy _ _ _ _ Hr) as [Hp Hs].
  rewrite refresh_cachedGasPrice, refresh_cachedGasPriceOracleSpeeds.
  unfold fetchGasPrice. rewrite Hr. cbn [fst gasPrice oracleGasPriceSpeeds].
  by rewrite !js_or_truthy.
Qed.


(** X4: a refresh whose oracle fetch succeeded replaces both cached
    variables, by the selected price and by the oracle's document, both of
    them truthy, whatever the contract would have answered; it logs the
    one debug entry of the oracle. *)
Theorem refresh_oracle_success (t : task) (w : world) (st : state)
    (r : OracleResult) :
  oracle w (oracleUrl t) (speedType t) = Ok r →
  cachedGasPrice (cycle t w st) = oracleGasPrice r ∧
  cachedGasPriceOracleSpeeds (cycle t w st) = oracleResponse r ∧
  ToBoolean (oracleGasPrice r) = true ∧
  ToBoolean (oracleResponse r) = true ∧
  logged (cycle t w st)
    = logged st ++ [log_debug (VObj {[ "gasPrice" := oracleGasPrice r ]})
                              "Gas price updated using the oracle"].
Proof.
  intros Hr.
  destruct (refresh_oracle_Ok t w st r Hr) as [Hprice Hspeeds].
  destruct (fetchGasPriceFromOracle_Ok_truthy _ _ _ _ Hr) as [Hp Hs].
  repeat split; try done.
  unfold refresh, fetchGasPrice. by rewrite Hr.
Qed.


(** X6: after a refresh whose oracle fetch succeeded on an entry that the
    bounds policy left unchanged, a request for the configured speed gets
    the cached gas price itself: the lookup converts the entry as the
    refresh did. *)
Theorem getPrice_configured_speed (t : task) (w : world) (st : state)
    (r : OracleResult) (v : value) (o : gmap string value) :
  oracle w (oracleUrl t) (speedType t) = Ok r →
  GetV (oracleResponse r) (speedType t) = Ok v →
  clamp v = v →
  o !! "type" = Some (VStr "speed") →
  o !! "value" = Some (speedType t) →
  getPrice (VObj o) (cycle t w st)
    = (Ok (cachedGasPrice (cycle t w st)), cycle t w st).
Proof.
  intros Hr Hget Hclamp Htype Hvalue.
  destruct (refresh_oracle_Ok t w st r Hr) as [Hprice Hspeeds].
  destruct (fetchGasPriceFromOracle_Ok _ _ _ _ Hr)
    as (resp & json & v' & text & wei & _ & _ & Hget' & Hv & Htext & Hwei & ->).
  cbn [oracleGasPrice oracleResponse] in *.
  rewrite Hget' in Hget. injection Hget as ->.
  unfold getPrice. f_equal. rewrite Hprice, Hspeeds.
  destruct (ToBoolean (speedType t)) eqn:Hkey.
  - rewrite (processGasPriceOptions_speed_entry o (speedType t) (VStr wei) json v
               Htype Hvalue Hkey Hget'), Hv.
    rewrite Hclamp in Htext.
    by rewrite (toString_Ok _ "speedOption" _ _ Htext), bind_Ok, Hwei, bind_Ok.
  - by rewrite (processGasPriceOptions_falsy_value o (VStr "speed") (speedType t)
                  (VStr wei) json Htype Hvalue Hkey).
Qed.

(** X7: the two chains share one cache.  [start('home')] stores the home
    fallback and [start('foreign')] after it replaces that by the foreign
    fallback; neither resets the cached speeds, so lookups after a restart
    still read the speeds fetched before it. *)
Theorem start_shares_cache (st : state) (options : value) :
  let home := start DEFAULT_UPDATE_INTERVAL env (VStr "home") st in
  let foreign := start DEFAULT_UPDATE_INTERVAL env (VStr "foreign") home.2 in
  home.1 = Ok () ∧ foreign.1 = Ok () ∧
  cachedGasPrice home.2 = env_value (HOME_GAS_PRICE_FALLBACK env) ∧
  cachedGasPrice foreign.2 = env_value (FOREIGN_GAS_PRICE_FALLBACK env) ∧
  cachedGasPriceOracleSpeeds home.2 = cachedGasPriceOracleSpeeds st ∧
  cachedGasPriceOracleSpeeds foreign.2 = cachedGasPriceOracleSpeeds st ∧
  (getPrice options foreign.2).1
    = processGasPriceOptions options
        (env_value (FOREIGN_GAS_PRICE_FALLBACK env))
        (cachedGasPriceOracleSpeeds st).
Proof.
  intros home foreign.
  assert (Hh : home.1 = Ok () ∧
               cachedGasPrice home.2 = env_value (HOME_GAS_PRICE_FALLBACK env) ∧
               cachedGasPriceOracleSpeeds home.2 = cachedGasPriceOracleSpeeds st).
  { subst home. unfold start. cbn [chain_config strict_equals_string String.eqb].
    by destruct (fetchGasPriceInterval st). }
  assert (Hf : foreign.1 = Ok () ∧
               cachedGasPrice foreign.2
                 = env_value (FOREIGN_GAS_PRICE_FALLBACK env) ∧
               cachedGasPriceOracleSpeeds foreign.2
                 = cachedGasPriceOracleSpeeds home.2).
  { subst foreign. unfold start. cbn [chain_config strict_equals_string String.eqb].
    by destruct (fetchGasPriceInterval home.2). }
  destruct Hh as (Hh1 & Hh2 & Hh3), Hf as (Hf1 & Hf2 & Hf3).
  rewrite Hh3 in Hf3. repeat split; try done.
  unfold getPrice. cbn [fst]. by rewrite Hf2, Hf3.
Qed.

End Refresh.

(** ** Lookup, case by case *)

(** X8: unless the request is an object whose type is 'gasPrice' or 'speed'
    and whose value is truthy, [processGasPriceOptions] returns the cached
    gas price: for an absent request, a request without type or value, a
    falsy value or an unknown type, and whatever the cached speeds are,
    null included. *)
Theorem processGasPriceOptions_no_override (options cached speeds : value) :
  (∀ (o : gmap string value) (type v : value),
     options = VObj o →
     o !! "type" = Some type →
     o !! "value" = Some v →
     type = VStr "gasPrice" ∨ type = VStr "speed" →
     ToBoolean v = false) →
  processGasPriceOptions options cached speeds = Ok cached.
Proof.
  intros Hno. unfold processGasPriceOptions.
  destruct (ToBoolean options) eqn:Hoptions; [| by rewrite bind_Ok, Hoptions].
  destruct options as [| | b | n | s | o | [name |]]; try done;
    try (cbn [GetV]; rewrite !bind_Ok; cbn [ToBoolean]; by rewrite ?bind_Ok).
  cbn [GetV ToString]. rewrite Object_prototype_type, Object_prototype_value.
  cbn [from_option].
  destruct (o !! "type") as [type |] eqn:Htype;
    rewrite !bind_Ok; [| cbn [ToBoolean]; by rewrite ?bind_Ok].
  destruct (ToBoolean type) eqn:Htruthy; rewrite ?bind_Ok, ?Htruthy; [| done].
  destruct (o !! "value") as [v |] eqn:Hvalue;
    rewrite ?bind_Ok; [| done].
  destruct (ToBoolean v) eqn:Hv; [| done].
  destruct (strict_equals_string type GAS_PRICE_OPTIONS.GAS_PRICE) eqn:Hgp.
  { apply strict_equals_string_true in Hgp.
    rewrite (Hno o type v eq_refl Htype Hvalue (or_introl Hgp)) in Hv. done. }
  destruct (strict_equals_string type GAS_PRICE_OPTIONS.SPEED) eqn:Hsp; [| done].
  apply strict_equals_string_true in Hsp.
  rewrite (Hno o type v eq_refl Htype Hvalue (or_intror Hsp)) in Hv. done.
Qed.

(** X9: for a request of type 'speed' whose key has a truthy numeric entry
    in the cached speeds, written as a plain decimal with at most nine
    digits after the point, [processGasPriceOptions] returns the decimal
    text of the entry times [10^9], exactly; the bounds policy is not
    applied to it. *)
Theorem processGasPriceOptions_speed (o tbl : gmap string value)
    (key cached : value) (v : number) :
  o !! "type" = Some (VStr "speed") →
  o !! "value" = Some key →
  ToBoolean key = true →
  tbl !! ToString key = Some (VNum v) →
  ToBoolean (VNum v) = true →
  plain_decimal 9 v = true →
  processGasPriceOptions (VObj o) cached (VObj tbl)
    = Ok (VStr (string_of_list_ascii (Z_chars (gwei_to_wei v)))) ∧
  ∃ (m : Z) (sc : nat),
    v = Dec m sc ∧ gwei_to_wei v * 10 ^ Z.of_nat sc = m * 10 ^ 9.
Proof.
  intros Htype Hvalue Hkey Hentry Hv Hplain.
  destruct v as [| | m sc]; try done.
  destruct (toWei_Number_toString m sc Hplain) as [HtoWei Hexact].
  split; [| by exists m, sc].
  rewrite (processGasPriceOptions_speed_entry o key cached (VObj tbl)
             (VNum (Dec m sc)) Htype Hvalue Hkey (GetV_own _ _ _ Hentry)).
  rewrite Hv.
  cbn [toString ToString].
  by rewrite bind_Ok, HtoWei, bind_Ok.
Qed.

(** X10: for a request of type 'speed' that names its speed by a string
    which has a falsy entry in the cached speeds, or is absent from them
    and is not the name of a member that every object inherits,
    [processGasPriceOptions] returns the cached gas price. *)
Theorem processGasPriceOptions_speed_missing (o tbl : gmap string value)
    (key : string) (cached : value) :
  o !! "type" = Some (VStr "speed") →
  o !! "value" = Some (VStr key) →
  (tbl !! key = None ∧ Object_prototype key = None ∨
   ∃ entry, tbl !! key = Some entry ∧ ToBoolean entry = false) →
  processGasPriceOptions (VObj o) cached (VObj tbl) = Ok cached.
Proof.
  intros Htype Hvalue Hmiss.
  destruct (ToBoolean (VStr key)) eqn:Hkey;
    [| by apply (processGasPriceOptions_falsy_value o (VStr "speed") (VStr key))].
  destruct Hmiss as [[Hnone Hproto] | (entry & Hentry & Hfalsy)].
  - by rewrite (processGasPriceOptions_speed_entry o (VStr key) cached (VObj tbl)
                  VUndefined Htype Hvalue Hkey
                  (GetV_absent tbl (VStr key) Hnone Hproto)).
  - rewrite (processGasPriceOptions_speed_entry o (VStr key) cached (VObj tbl)
               entry Htype Hvalue Hkey (GetV_own tbl (VStr key) _ Hentry)).
    by rewrite Hfalsy.
Qed.

Lemma processGasPriceOptions_Ok_cases (options cached speeds v : value) :
  processGasPriceOptions options cached speeds = Ok v →
  v = cached ∨ ToBoolean v = true.
Proof.
  unfold processGasPriceOptions.
  destruct (ToBoolean options) eqn:Hoptions;
    [| rewrite bind_Ok, Hoptions; intros [= <-]; by left].
  destruct (GetV_truthy options (VStr "type") Hoptions) as [type ->].
  destruct (GetV_truthy options (VStr "value") Hoptions) as [key ->].
  rewrite !bind_Ok.
  destruct (ToBoolean type) eqn:Htype; rewrite bind_Ok;
    [| rewrite Htype; intros [= <-]; by left].
  destruct (ToBoolean key) eqn:Hkey; [| intros [= <-]; by left].
  destruct (strict_equals_string type _); [intros [= <-]; by right |].
  destruct (strict_equals_string type _); [| intros [= <-]; by left].
  destruct (GetV speeds key) as [speedOption |]; [| done]. rewrite bind_Ok.
  destruct (ToBoolean speedOption) eqn:Hoption; [| intros [= <-]; by left].
  destruct (toString _ speedOption) as [text |]; [| done]. rewrite bind_Ok.
  destruct (Web3Utils.toWei _ _) as [wei |] eqn:Hwei; [| done].
  rewrite bind_Ok. intros [= <-]. right. by eapply toWei_Ok_truthy.
Qed.

(** X11: a value that [processGasPriceOptions] returns is the cached gas
    price or is truthy; so with a truthy cached gas price no lookup
    returns a falsy price. *)
Theorem processGasPriceOptions_truthy (options cached speeds v : value) :
  processGasPriceOptions options cached speeds = Ok v →
  (v = cached ∨ ToBoolean v = true) ∧
  (ToBoolean cached = true → ToBoolean v = true).
Proof.
  intros Hor%processGasPriceOptions_Ok_cases.
  split; [done |]. intros Hcached. by destruct Hor as [-> | ?].
Qed.

(** X12: after a [start] that stored a truthy fallback and any run of
    refresh cycles, every price that [getPrice] returns is truthy, whatever
    the request. *)
Theorem getPrice_set_after_start (MIN MAX : number)
    (DEFAULT_UPDATE_INTERVAL : value) (env : environment)
    (StringToNumber : string → number) (chainId : value) (st0 : state)
    (t0 : task) (fallback : value) (run : list (task * world))
    (options v : value) :
  chain_config DEFAULT_UPDATE_INTERVAL env chainId = Ok (t0, fallback) →
  ToBoolean fallback = true →
  let st := refreshes MIN MAX StringToNumber run
              (start DEFAULT_UPDATE_INTERVAL env chainId st0).2 in
  (getPrice options st).1 = Ok v →
  ToBoolean v = true.
Proof.
  intros Hcfg Hfallback st Hv.
  assert (Hst : ToBoolean (cachedGasPrice st) = true).
  { apply refreshes_truthy.
    by rewrite (proj2 (start_cachedGasPrice _ _ chainId st0 t0 fallback Hcfg)). }
  by destruct (processGasPriceOptions_Ok_cases _ _ _ _ Hv) as [-> | ?].
Qed.

(** * The further properties at the sample deployment *)

Module MoreInstances.
Import Sample.

(** With [MIN = 1] and [MAX = 100]: 150 is brought within the bounds, and
    the object [{"gwei": 5}], which has no numeric reading, passes
    unchanged. *)
Lemma gasPriceWithinLimits_in_bounds_sample :
  num_leb (Dec 1 0) (Dec 100 0) = true ∧
  js_ge StringToNumber (clamp (VNum (Dec 150 0))) (Dec 1 0) = true ∧
  js_le StringToNumber (clamp (VNum (Dec 150 0))) (Dec 100 0) = true ∧
  clamp (VObj {[ "gwei" := VNum (Dec 5 0) ]}) = VObj {[ "gwei" := VNum (Dec 5 0) ]}.
Proof.
  split; [reflexivity |].
  pose proof (gasPriceWithinLimits_in_bounds (Dec 1 0) (Dec 100 0) StringToNumber)
    as Hbounds.
  destruct (Hbounds (VNum (Dec 150 0)) eq_refl) as [Hnum _].
  destruct (Hbounds (VObj {[ "gwei" := VNum (Dec 5 0) ]}) eq_refl) as [_ Hnan].
  destruct Hnum as [Hge Hle]; [discriminate |].
  refine (conj Hge (conj Hle (Hnan eq_refl _))).
  intros o [= <-]. reflexivity.
Defined.

Lemma gasPriceWithinLimits_idempotent_sample :
  num_leb (Dec 1 0) (Dec 100 0) = true ∧
  clamp (clamp (VNum (Dec 150 0))) = clamp (VNum (Dec 150 0)).
Proof.
  split; [reflexivity |].
  apply (gasPriceWithinLimits_idempotent (Dec 1 0) (Dec 100 0) StringToNumber
           (VNum (Dec 150 0))); reflexivity.
Defined.

(** The document [{"fast": 1000}] with [MAX = 250]: the selected value is
    250000000000 wei, which is 250 gwei. *)
Lemma fetchGasPriceFromOracle_in_bounds_sample :
  ∃ wei : Z,
    oracle (oracle_up (VObj {[ "fast" := VNum (Dec 1000 0) ]})) (VStr "url")
           (VStr "fast")
      = Ok {| oracleGasPrice := VStr (string_of_list_ascii (Z_chars wei));
              oracleResponse := VObj {[ "fast" := VNum (Dec 1000 0) ]} |} ∧
    num_leb MIN (Dec wei 9) = true ∧
    num_leb (Dec wei 9) MAX = true.
Proof.
  exact (fetchGasPriceFromOracle_in_bounds MIN MAX StringToNumber
           (oracle_up (VObj {[ "fast" := VNum (Dec 1000 0) ]})) (VStr "url")
           (VStr "fast")
           {| response_json := λ _, Ok (VObj {[ "fast" := VNum (Dec 1000 0) ]}) |}
           {[ "fast" := VNum (Dec 1000 0) ]} (Dec 1000 0) MAX
           eq_refl eq_refl eq_refl eq_refl eq_refl eq_refl eq_refl).
Defined.

(** A refresh of the started module with the oracle answering [speeds]. *)
Lemma refresh_oracle_success_sample :
  cachedGasPrice (cycle home_task (oracle_up speeds) started) = VStr "50000000000" ∧
  cachedGasPriceOracleSpeeds (cycle home_task (oracle_up speeds) started) = speeds.
Proof.
  destruct (refresh_oracle_success MIN MAX StringToNumber home_task
              (oracle_up speeds) started
              {| oracleGasPrice := VStr "50000000000"; oracleResponse := speeds |}
              eq_refl)
    as (Hprice & Hspeeds & _).
  exact (conj Hprice Hspeeds).
Defined.


(** After a refresh with the oracle answering [speeds], whose "fast" entry
    50 is within the bounds, a request for the speed "fast" gets the cached
    gas price. *)
Lemma getPrice_configured_speed_sample :
  getPrice (VObj {[ "type" := VStr "speed"; "value" := VStr "fast" ]})
           (cycle home_task (oracle_up speeds) started)
    = (Ok (cachedGasPrice (cycle home_task (oracle_up speeds) started)),
       cycle home_task (oracle_up speeds) started).
Proof.
  apply (getPrice_configured_speed MIN MAX StringToNumber home_task
           (oracle_up speeds) started
           {| oracleGasPrice := VStr "50000000000"; oracleResponse := speeds |}
           (VNum (Dec 50 0))
           {[ "type" := VStr "speed"; "value" := VStr "fast" ]});
    reflexivity.
Defined.

(** No request, and the cached speeds still null. *)
Lemma processGasPriceOptions_no_override_sample :
  processGasPriceOptions VUndefined (VStr "1000000000") VNull
    = Ok (VStr "1000000000").
Proof.
  apply (processGasPriceOptions_no_override VUndefined (VStr "1000000000") VNull).
  intros o type v Hobj. discriminate Hobj.
Defined.

(** The entry 1000 of the cached speeds, above [MAX = 250], is converted as
    it is. *)
Lemma processGasPriceOptions_speed_sample :
  processGasPriceOptions
    (VObj {[ "type" := VStr "speed"; "value" := VStr "fast" ]})
    (VStr "250000000000") (VObj {[ "fast" := VNum (Dec 1000 0) ]})
    = Ok (VStr "1000000000000").
Proof.
  exact (proj1 (processGasPriceOptions_speed
                  {[ "type" := VStr "speed"; "value" := VStr "fast" ]}
                  {[ "fast" := VNum (Dec 1000 0) ]} (VStr "fast")
                  (VStr "250000000000") (Dec 1000 0)
                  eq_refl eq_refl eq_refl eq_refl eq_refl eq_refl)).
Defined.

(** The speed "instant" is not among the cached speeds, and no object
    inherits a member of that name. *)
Lemma processGasPriceOptions_speed_missing_sample :
  Object_prototype "instant" = None ∧
  processGasPriceOptions
    (VObj {[ "type" := VStr "speed"; "value" := VStr "instant" ]})
    (VStr "1000000000") (VObj {[ "fast" := VNum (Dec 50 0) ]})
    = Ok (VStr "1000000000").
Proof.
  split; [reflexivity |].
  apply (processGasPriceOptions_speed_missing
           {[ "type" := VStr "speed"; "value" := VStr "instant" ]}
           {[ "fast" := VNum (Dec 50 0) ]} "instant" (VStr "1000000000"));
    [reflexivity | reflexivity | left; split; reflexivity].
Defined.

(** The answer to a request for the speed "fast" is truthy. *)
Lemma processGasPriceOptions_truthy_sample :
  processGasPriceOptions
    (VObj {[ "type" := VStr "speed"; "value" := VStr "fast" ]})
    (VStr "1000000000") speeds
    = Ok (VStr "50000000000") ∧
  ToBoolean (VStr "50000000000") = true.
Proof.
  split; [reflexivity |].
  exact (proj2 (processGasPriceOptions_truthy
                  (VObj {[ "type" := VStr "speed"; "value" := VStr "fast" ]})
                  (VStr "1000000000") speeds (VStr "50000000000") eq_refl)
               eq_refl).
Defined.

(** After [start('home')] and two refresh cycles, the answer to no request
    is truthy. *)
Lemma getPrice_set_after_start_sample :
  let st := refreshes MIN MAX StringToNumber
              [(home_task, all_down); (home_task, oracle_down)] started in
  (getPrice VUndefined st).1 = Ok (VStr "7000000000") ∧
  ToBoolean (VStr "7000000000") = true.
Proof.
  split; [reflexivity |].
  exact (getPrice_set_after_start MIN MAX DEFAULT_UPDATE_INTERVAL env
           StringToNumber (VStr "home") initial_state home_task
           (VStr "1000000000")
           [(home_task, all_down); (home_task, oracle_down)]
           VUndefined (VStr "7000000000") eq_refl eq_refl eq_refl).
Defined.

End MoreInstances.
